(** * K8sPod: topology planning, ordered start, readiness polling, teardown

    A shallow embedding of [jina/peapods/pods/k8s.py].  Python objects are
    records, [getattr] with a default is an explicit three-way attribute,
    raised exceptions are values, and the calls made to the Kubernetes
    control plane are recorded in a trace. *)

From Stdlib Require Import ZArith Lia Ascii.
From stdpp Require Import gmap strings list pretty.

Local Open Scope string_scope.
Local Open Scope Z_scope.
Local Open Scope list_scope.

#[local] Set Warnings "-clear-no-such-hyp".

(** ** Python values *)

(** The exceptions that can travel through this module.  All of them are
    subclasses of Python's [Exception]. *)
Inductive exception : Type :=
  | ValueError (msg : string)
  | AttributeError (attribute : string)
  | KeyError (key : string)
  | ApiException (reason : string).

(** An attribute of an [argparse.Namespace]: the object may not carry it at
    all, which [getattr(obj, name, default)] tolerates and [obj.name] does
    not. *)
Inductive attr (A : Type) : Type :=
  | Missing
  | Attr (a : A).
Arguments Missing {A}.
Arguments Attr {A} a.

Definition getattr {A : Type} (a : attr A) (default : A) : A :=
  match a with
  | Missing => default
  | Attr v => v
  end.

(** [obj.name]: raises [AttributeError] when the attribute is absent. *)
Definition getfield {A : Type} (attribute : string) (a : attr A) : exception + A :=
  match a with
  | Missing => inl (AttributeError attribute)
  | Attr v => inr v
  end.

(** Truth value of an [Optional[str]]: [None] and the empty string are false. *)
Definition truthy (o : option string) : bool :=
  match o with
  | None => false
  | Some s => negb (String.eqb s EmptyString)
  end.

(** [o or default] on an [Optional[str]]. *)
Definition or_else (o : option string) (default : string) : string :=
  match o with
  | Some s => if truthy o then s else default
  | None => default
  end.

(** Values stored in the small dictionaries handed to the command-line
    serialiser. *)
Inductive pyval : Type :=
  | PyNone
  | PyInt (z : Z)
  | PyStr (s : string).

Abbreviation dict := (list (string * pyval)).

(** ** Unit arguments *)

Module Namespace.

Record t : Type := mk {
  name : string;
  k8s_namespace : string;
  noblock_on_start : bool;
  port_expose : Z;
  uses : string;
  uses_with : option dict;
  parallel : attr Z;
  replicas : attr Z;
  uses_before : attr (option string);
  uses_after : attr (option string);
  k8s_custom_resource_dir : attr (option string)
}.

(** [a = copy.copy(args); a.uses = image] *)
Definition copy_with_uses (args : t) (image : string) : t :=
  {| name := name args;
     k8s_namespace := k8s_namespace args;
     noblock_on_start := noblock_on_start args;
     port_expose := port_expose args;
     uses := image;
     uses_with := uses_with args;
     parallel := parallel args;
     replicas := replicas args;
     uses_before := uses_before args;
     uses_after := uses_after args;
     k8s_custom_resource_dir := k8s_custom_resource_dir args |}.

End Namespace.

(** ** The topology plan *)

Record parsed_args : Type := {
  head_deployment : option Namespace.t;
  tail_deployment : option Namespace.t;
  deployments : list Namespace.t
}.

Section Planning.

(** [jina.__default_executor__], the pass-through image. *)
Variable __default_executor__ : string.

(** [self.needs]: the names of the upstream pods. *)
Variable needs : gset string.

Definition head_condition (args : Namespace.t) : bool :=
  let parallel := getattr (Namespace.parallel args) 1 in
  let replicas := getattr (Namespace.replicas args) 1 in
  let uses_before := getattr (Namespace.uses_before args) None in
  (1 <? parallel)
  || ((1 <? Z.of_nat (size needs)) && (1 <? replicas))
  || truthy uses_before.

Definition tail_condition (args : Namespace.t) : bool :=
  let parallel := getattr (Namespace.parallel args) 1 in
  (1 <? parallel) || truthy (getattr (Namespace.uses_after args) None).

(** [K8sPod._parse_deployment_args].  [[args] * parallel] is the empty list
    for [parallel <= 0]. *)
Definition _parse_deployment_args (args : Namespace.t) : exception + parsed_args :=
  let parallel := getattr (Namespace.parallel args) 1 in
  match
    (if head_condition args then
       match getfield "uses_before" (Namespace.uses_before args) with
       | inl e => inl e
       | inr ub => inr (Some (Namespace.copy_with_uses args (or_else ub __default_executor__)))
       end
     else inr None)
  with
  | inl e => inl e
  | inr head =>
      match
        (if tail_condition args then
           match getfield "uses_after" (Namespace.uses_after args) with
           | inl e => inl e
           | inr ua => inr (Some (Namespace.copy_with_uses args (or_else ua __default_executor__)))
           end
         else inr None)
      with
      | inl e => inl e
      | inr tail =>
          inr {| head_deployment := head;
                 tail_deployment := tail;
                 deployments := replicate (Z.to_nat parallel) args |}
      end
  end.

End Planning.

(** ** External collaborators *)

(** The pure helpers of [k8slib.kubernetes_deployment], which this file
    imports and does not define. *)
Class kubernetes_deployment : Type := {
  to_dns_name : string → string;
  get_image_name : string → string;
  get_cli_params : Namespace.t → list string → string;
  get_init_container_args : Namespace.t → option dict;
  dictionary_to_cli_param : option dict → string
}.

(** What the control plane reports about one pod.  [labels] is the pod's
    dictionary of labels, possibly empty; a pod whose [labels] attribute is
    [None] is not represented. *)
Record V1ObjectMeta : Type := { labels : gmap string string }.
Record V1PodStatus : Type := { phase : string; pod_ip : option string }.
Record V1Pod : Type := { metadata : V1ObjectMeta; status : V1PodStatus }.

(** The keyword arguments of one [kubernetes_deployment.deploy_service] call;
    an argument left at its default is [None]. *)
Record deploy_service_call : Type := {
  svc_name : string;
  svc_namespace : string;
  image_name : string;
  container_cmd : string;
  container_args : string;
  svc_logger : string;
  svc_replicas : Z;
  pull_policy : string;
  init_container : option dict;
  custom_resource_dir : option string;
  svc_port_expose : option Z
}.

(** Everything observable from outside: log lines, control-plane calls and
    the pause between two polls. *)
Inductive event : Type :=
  | Log (logger level message : string)
  | CreateNamespace (namespace : string) (custom_resource_dir : option string)
  | DeployService (call : deploy_service_call)
  | ListNamespacedPod (namespace : string)
  | DeleteNamespacedDeployment (name namespace : string)
  | Sleep.

(** The control plane's answers.  An answer may depend on how many calls were
    made before it ([nat]), so that the same call can be answered
    differently over time; [Some e] and [inl e] mean that the call raises. *)
Class control_plane : Type := {
  create_namespace : nat → string → option string → option exception;
  deploy_service : nat → deploy_service_call → option exception;
  list_namespaced_pod : nat → string → exception + list V1Pod;
  delete_namespaced_deployment : nat → string → string → exception + string
}.

(** ** Program state and effects *)

(** [U] is the type of the context managers kept on the exit stack. *)
Record world (U : Type) : Type := World {
  trace : list event;
  clock : nat;
  exit_callbacks : list U
}.
Arguments World {U} _ _ _.
Arguments trace {U} _.
Arguments clock {U} _.
Arguments exit_callbacks {U} _.

(** A call either returns, raises, or is still polling when the fuel that
    bounds the readiness loop runs out. *)
Inductive outcome (A : Type) : Type :=
  | Ret (a : A)
  | Raise (e : exception)
  | Spin.
Arguments Ret {A} a.
Arguments Raise {A} e.
Arguments Spin {A}.

Definition M (U A : Type) : Type := world U → outcome A * world U.

#[global] Instance M_ret {U} : MRet (M U) := λ A a w, (Ret a, w).

#[global] Instance M_bind {U} : MBind (M U) := λ A B f m w,
  match m w with
  | (Ret a, w') => f a w'
  | (Raise e, w') => (Raise e, w')
  | (Spin, w') => (Spin, w')
  end.

Section Effects.

Context {U : Type} {cluster : control_plane}.

Definition raise {A : Type} (e : exception) : M U A := λ w, (Raise e, w).

Definition spin {A : Type} : M U A := λ w, (Spin, w).

(** [try: body except Exception as exc: handler(exc)] *)
Definition try_except {A : Type} (body : M U A) (handler : exception → M U A) : M U A :=
  λ w, match body w with
       | (Raise e, w') => handler e w'
       | r => r
       end.

(** A local effect: one more event, no control-plane call. *)
Definition emit (e : event) : M U unit :=
  λ w, (Ret tt, World (trace w ++ [e]) (clock w) (exit_callbacks w)).

(** A control-plane call: recorded, counted, then answered. *)
Definition called (e : event) (w : world U) : world U :=
  World (trace w ++ [e]) (S (clock w)) (exit_callbacks w).

Definition kubernetes_tools_create (namespace : string) (crd : option string) : M U unit :=
  λ w, match create_namespace (clock w) namespace crd with
       | None => (Ret tt, called (CreateNamespace namespace crd) w)
       | Some e => (Raise e, called (CreateNamespace namespace crd) w)
       end.

Definition kubernetes_deployment_deploy_service (c : deploy_service_call) : M U unit :=
  λ w, match deploy_service (clock w) c with
       | None => (Ret tt, called (DeployService c) w)
       | Some e => (Raise e, called (DeployService c) w)
       end.

Definition client_list_namespaced_pod (namespace : string) : M U (list V1Pod) :=
  λ w, match list_namespaced_pod (clock w) namespace with
       | inr items => (Ret items, called (ListNamespacedPod namespace) w)
       | inl e => (Raise e, called (ListNamespacedPod namespace) w)
       end.

Definition client_delete_namespaced_deployment (name namespace : string) : M U string :=
  λ w, match delete_namespaced_deployment (clock w) name namespace with
       | inr resp_status => (Ret resp_status, called (DeleteNamespacedDeployment name namespace) w)
       | inl e => (Raise e, called (DeleteNamespacedDeployment name namespace) w)
       end.

(** [self._exit_callbacks.append(cm)], the tail of [ExitStack.enter_context]. *)
Definition push_exit_callback (u : U) : M U unit :=
  λ w, (Ret tt, World (trace w) (clock w) (exit_callbacks w ++ [u])).

(** [for x in xs: f(x)] *)
Fixpoint for_each {A : Type} (f : A → M U unit) (xs : list A) : M U unit :=
  match xs with
  | [] => mret tt
  | x :: rest => f x ;; for_each f rest
  end.

End Effects.

(** The double-quote character, for the argument arrays. *)
Definition dq : string := String (Ascii.ascii_of_nat 34) EmptyString.

Definition repr (e : exception) : string :=
  match e with
  | ValueError msg => "ValueError('" +:+ msg +:+ "')"
  | AttributeError a => "AttributeError('" +:+ a +:+ "')"
  | KeyError k => "KeyError('" +:+ k +:+ "')"
  | ApiException r => "ApiException('" +:+ r +:+ "')"
  end.

Definition quoted (s : string) : string := dq +:+ s +:+ dq.

(** ** One deployment unit: [K8sPod._K8sDeployment] *)

Module K8sDeployment.

(** The constructor arguments.  The three attributes that the constructor
    derives from them ([dns_name], [k8s_namespace], [num_replicas]) are
    assigned once and never reassigned, so they are functions of the
    record. *)
Record t : Type := __init__ {
  name : string;
  head_port_in : Z;
  tail_port_out : Z;
  head_zmq_identity : list Byte.byte;
  version : string;
  shard_id : option Z;
  common_args : Namespace.t;
  deployment_args : Namespace.t
}.

Section Methods.

Context {helpers : kubernetes_deployment} {cluster : control_plane}.
Variable __default_executor__ : string.

Definition dns_name (self : t) : string := to_dns_name (name self).

Definition k8s_namespace (self : t) : string :=
  Namespace.k8s_namespace (common_args self).

Definition num_replicas (self : t) : Z :=
  getattr (Namespace.replicas (common_args self)) 1.

Definition base_image (self : t) : string :=
  "jinaai/jina:" +:+ version self +:+ "-py38-standard".

Definition _deploy_gateway (self : t) : M t unit :=
  kubernetes_deployment_deploy_service
    {| svc_name := name self;
       svc_namespace := k8s_namespace self;
       image_name := base_image self;
       container_cmd := "[" +:+ quoted "jina" +:+ "]";
       container_args :=
         "[" +:+ quoted "gateway" +:+ ", "
         +:+ quoted "--grpc-data-requests" +:+ ", "
         +:+ get_cli_params (common_args self) ["pod_role"] +:+ "]";
       svc_logger := "deploy_" +:+ name self;
       svc_replicas := 1;
       pull_policy := "Always";
       init_container := None;
       custom_resource_dir := None;
       svc_port_expose := Some (Namespace.port_expose (common_args self)) |}.

Definition _construct_runtime_container_args
    (deployment_args : Namespace.t) (uses uses_metas uses_with_string : string) : string :=
  "[" +:+ quoted "executor" +:+ ", "
  +:+ quoted "--native" +:+ ", "
  +:+ quoted "--uses" +:+ ", " +:+ quoted uses +:+ ", "
  +:+ quoted "--grpc-data-requests" +:+ ", "
  +:+ quoted "--runtime-cls" +:+ ", " +:+ quoted "GRPCDataRuntime" +:+ ", "
  +:+ quoted "--uses-metas" +:+ ", " +:+ quoted uses_metas +:+ ", "
  +:+ uses_with_string
  +:+ get_cli_params deployment_args [] +:+ "]".

Definition _deploy_runtime (self : t) : M t unit :=
  let image_name := get_image_name (Namespace.uses (deployment_args self)) in
  let init_container_args := get_init_container_args (common_args self) in
  let uses_metas :=
    dictionary_to_cli_param
      (Some [("pea_id", match shard_id self with
                        | None => PyNone
                        | Some i => PyInt i
                        end)]) in
  let uses_with := dictionary_to_cli_param (Namespace.uses_with (deployment_args self)) in
  let uses_with_string :=
    if String.eqb uses_with EmptyString then EmptyString
    else quoted "--uses-with" +:+ ", " +:+ quoted uses_with +:+ ", " in
  let '(image_name, uses) :=
    if String.eqb image_name __default_executor__
    then (base_image self, "BaseExecutor")
    else (image_name, "config.yml") in
  let container_args :=
    _construct_runtime_container_args (deployment_args self) uses uses_metas uses_with_string in
  kubernetes_deployment_deploy_service
    {| svc_name := dns_name self;
       svc_namespace := k8s_namespace self;
       image_name := image_name;
       container_cmd := "[" +:+ quoted "jina" +:+ "]";
       container_args := container_args;
       svc_logger := "deploy_" +:+ name self;
       svc_replicas := num_replicas self;
       pull_policy := "IfNotPresent";
       init_container := init_container_args;
       custom_resource_dir :=
         getattr (Namespace.k8s_custom_resource_dir (common_args self)) None;
       svc_port_expose := None |}.

(** How one pass over a pod listing ends. *)
Inductive scan_result : Type :=
  | Returned
  | Exhausted
  | Failed (e : exception).

(** The predicate of the [if] inside the [for] loop.  [labels['app']] is
    looked up first and raises [KeyError] when the pod has no such
    label. *)
Definition corresponds_to_me (self : t) (pod_info : V1Pod) : exception + bool :=
  match labels (metadata pod_info) !! "app" with
  | None => inl (KeyError "app")
  | Some app =>
      inr (bool_decide (app = name self)
           && bool_decide (phase (status pod_info) = "Running"))
  end.

(** The [for pod_info in ...items] loop, threading the local [pod_ips]. *)
Fixpoint scan_pods (self : t) (items : list V1Pod) (pod_ips : gset (option string))
    : scan_result * gset (option string) :=
  match items with
  | [] => (Exhausted, pod_ips)
  | pod_info :: rest =>
      match corresponds_to_me self pod_info with
      | inl e => (Failed e, pod_ips)
      | inr true =>
          let pod_ips := {[ pod_ip (status pod_info) ]} ∪ pod_ips in
          if bool_decide (Z.of_nat (size pod_ips) = num_replicas self)
          then (Returned, pod_ips)
          else scan_pods self rest pod_ips
      | inr false => scan_pods self rest pod_ips
      end
  end.

(** The [while True] loop; [fuel] bounds the number of polls. *)
Fixpoint poll (fuel : nat) (self : t) (pod_ips : gset (option string)) : M t unit :=
  match fuel with
  | O => spin
  | S fuel =>
      items ← client_list_namespaced_pod (k8s_namespace self);
      match scan_pods self items pod_ips with
      | (Returned, _) => mret tt
      | (Failed e, _) => raise e
      | (Exhausted, pod_ips) => emit Sleep ;; poll fuel self pod_ips
      end
  end.

Definition wait_start_success (fuel : nat) (self : t) : M t unit :=
  poll fuel self ∅.

Definition start (fuel : nat) (self : t) : M t t :=
  (if String.eqb (name self) "gateway"
   then _deploy_gateway self
   else _deploy_runtime self) ;;
  (if negb (Namespace.noblock_on_start (common_args self))
   then wait_start_success fuel self
   else mret tt) ;;
  mret self.

Definition close (self : t) : M t unit :=
  let logger := "close_" +:+ name self in
  try_except
    (resp_status ← client_delete_namespaced_deployment (name self) (k8s_namespace self);
     if String.eqb resp_status "Success"
     then emit (Log logger "success"
                  (" Successful deletion of deployment " +:+ name self))
     else emit (Log logger "error"
                  (" Deletion of deployment " +:+ name self
                   +:+ " unsuccessful with status " +:+ resp_status)))
    (λ exc, emit (Log logger "error"
                    (" Error deleting deployment " +:+ name self
                     +:+ ": " +:+ repr exc))).

Definition __enter__ (fuel : nat) (self : t) : M t t := start fuel self.

Definition __exit__ (self : t) : M t unit := close self.

End Methods.

(** The dictionary that [to_node] returns, one field per key. *)
Record node : Type := {
  node_name : string;
  node_head_host : string;
  node_head_port_in : Z;
  node_tail_port_out : Z;
  node_head_zmq_identity : list Byte.byte
}.

Section Routing.

Context {helpers : kubernetes_deployment}.

Definition to_node (self : t) : node :=
  {| node_name := name self;
     node_head_host := dns_name self +:+ "." +:+ k8s_namespace self +:+ ".svc";
     node_head_port_in := head_port_in self;
     node_tail_port_out := tail_port_out self;
     node_head_zmq_identity := head_zmq_identity self |}.

End Routing.

End K8sDeployment.

(** ** The orchestrator: [K8sPod] *)

Module K8sPod.

Record t : Type := {
  name : string;
  args : Namespace.t;
  needs : gset string;
  deployment_args : parsed_args;
  version : string;
  fixed_head_port_in : Z;
  fixed_tail_port_out : Z;
  k8s_head_deployment : option K8sDeployment.t;
  k8s_tail_deployment : option K8sDeployment.t;
  k8s_deployments : list K8sDeployment.t
}.

(** The [head_zmq_identity] property. *)
Definition head_zmq_identity : list Byte.byte := [].

Section Methods.

Context {helpers : kubernetes_deployment} {cluster : control_plane}.
Variable __default_executor__ : string.

Definition _parse_args (needs : gset string) (args : Namespace.t)
    : exception + parsed_args :=
  _parse_deployment_args __default_executor__ needs args.

(** [K8sPod.__init__].  [pod_name] is the value of the inherited
    [BasePod.name] property and [version] the answer of
    [_get_base_executor_version], which asks a remote registry; both are
    taken as given. *)
Definition __init__ (pod_name version : string)
    (args : Namespace.t) (needs : option (gset string)) : exception + t :=
  let needs := default ∅ needs in
  match _parse_args needs args with
  | inl e => inl e
  | inr deployment_args =>
      let fixed_head_port_in := 8081 in
      let fixed_tail_port_out := 8082 in
      let unit name dargs :=
        K8sDeployment.__init__ name fixed_head_port_in fixed_tail_port_out
          head_zmq_identity version None args dargs in
      inr {| name := pod_name;
             args := args;
             needs := needs;
             deployment_args := deployment_args;
             version := version;
             fixed_head_port_in := fixed_head_port_in;
             fixed_tail_port_out := fixed_tail_port_out;
             k8s_head_deployment :=
               unit (pod_name +:+ "-head") <$> head_deployment deployment_args;
             k8s_tail_deployment :=
               unit (pod_name +:+ "-tail") <$> tail_deployment deployment_args;
             k8s_deployments :=
               imap (λ i args,
                       unit (if bool_decide (1 < length (deployments deployment_args))%nat
                             then pod_name +:+ "-" +:+ pretty i
                             else pod_name) args)
                    (deployments deployment_args) |}
  end.

(** [ExitStack.enter_context]: enter the unit, then record its exit. *)
Definition enter_context (fuel : nat) (cm : K8sDeployment.t) : M K8sDeployment.t unit :=
  K8sDeployment.__enter__ __default_executor__ fuel cm ;;
  push_exit_callback cm.

(** The log line is the source's without its leading emoji and tab. *)
Definition start (fuel : nat) (self : t) : M K8sDeployment.t t :=
  emit (Log ("start_" +:+ name self) "info"
          ("Create Namespace " +:+ quoted (Namespace.k8s_namespace (args self))
           +:+ " for " +:+ quoted (name self))) ;;
  kubernetes_tools_create
    (Namespace.k8s_namespace (args self))
    (getattr (Namespace.k8s_custom_resource_dir (args self)) None) ;;
  match k8s_head_deployment self with
  | Some head => enter_context fuel head
  | None => mret tt
  end ;;
  for_each (enter_context fuel) (k8s_deployments self) ;;
  match k8s_tail_deployment self with
  | Some tail => enter_context fuel tail
  | None => mret tt
  end ;;
  mret self.

(** Running the recorded exits in the order given.  An exit that raises
    does not stop the others; its exception is raised at the end. *)
Fixpoint unwind (callbacks : list K8sDeployment.t) (pending : option exception)
    : M K8sDeployment.t unit :=
  match callbacks with
  | [] => match pending with
          | None => mret tt
          | Some e => raise e
          end
  | cm :: rest =>
      λ w, match K8sDeployment.__exit__ cm w with
           | (Ret _, w') => unwind rest pending w'
           | (Raise e, w') => unwind rest (Some e) w'
           | (Spin, w') => (Spin, w')
           end
  end.

(** The order in which the inherited exit of the exit stack runs the
    recorded exits, as a function of the order of entry.  The class
    [ExitFIFO] that fixes it is imported from the [pods] package and not
    defined in this file. *)
Variable exit_order : list K8sDeployment.t → list K8sDeployment.t.

(** [ExitFIFO.__exit__]: take every recorded exit off the stack and run
    it. *)
Definition ExitFIFO__exit__ : M K8sDeployment.t unit :=
  λ w, unwind (exit_order (exit_callbacks w)) None (World (trace w) (clock w) []).

(** [join] is [pass]. *)
Definition join (self : t) : M K8sDeployment.t unit := mret tt.

Definition __exit__ (self : t) : M K8sDeployment.t unit :=
  ExitFIFO__exit__ ;; join self.

(** [ExitStack.close] is [self.__exit__(None, None, None)]. *)
Definition close (self : t) : M K8sDeployment.t unit := __exit__ self.

(** The message of the [ValueError] names the method instead of printing the
    [repr] of the bound method. *)
Definition wait_start_success (fuel : nat) (self : t) : M K8sDeployment.t unit :=
  if negb (Namespace.noblock_on_start (args self))
  then raise (ValueError
                "wait_start_success should only be called when `noblock_on_start` is set to True")
  else
    try_except
      (match k8s_head_deployment self with
       | Some head => K8sDeployment.wait_start_success fuel head
       | None => mret tt
       end ;;
       for_each (K8sDeployment.wait_start_success fuel) (k8s_deployments self) ;;
       match k8s_tail_deployment self with
       | Some tail => K8sDeployment.wait_start_success fuel tail
       | None => mret tt
       end)
      (λ exc, close self ;; raise exc).

End Methods.

Section Properties.

Context {helpers : kubernetes_deployment}.
Variable __default_executor__ : string.

(** [self.deployment_args['deployments']] *)
Definition deployments_of (self : t) : list Namespace.t :=
  deployments (deployment_args self).

(** [update_pea_args]: the plan is computed again from [self.args]; the
    units are not rebuilt. *)
Definition update_pea_args (self : t) : exception + t :=
  match _parse_args __default_executor__ (needs self) (args self) with
  | inl e => inl e
  | inr deployment_args =>
      inr {| name := name self;
             args := args self;
             needs := needs self;
             deployment_args := deployment_args;
             version := version self;
             fixed_head_port_in := fixed_head_port_in self;
             fixed_tail_port_out := fixed_tail_port_out self;
             k8s_head_deployment := k8s_head_deployment self;
             k8s_tail_deployment := k8s_tail_deployment self;
             k8s_deployments := k8s_deployments self |}
  end.

Definition head_args (self : t) : Namespace.t := args self.

Definition tail_args (self : t) : Namespace.t := args self.

Definition num_peas (self : t) : Z := -1.

(** The [deployments] property.  [None] stands for the [IndexError] of
    [self.k8s_deployments[0]] on an empty list.  A unit is an object without
    [__bool__] or [__len__], so [if self.k8s_head_deployment] tests it
    against [None]. *)
Definition deployments (self : t) : option (list K8sDeployment.node) :=
  if String.eqb (Namespace.name (args self)) "gateway" then
    match k8s_deployments self with
    | [] => None
    | first :: _ => Some [K8sDeployment.to_node first]
    end
  else
    Some (option_list (K8sDeployment.to_node <$> k8s_head_deployment self)
          ++ (K8sDeployment.to_node <$> k8s_deployments self)
          ++ option_list (K8sDeployment.to_node <$> k8s_tail_deployment self)).

(** [_get_base_executor_version], given the framework's own version
    [jina.__version__] and the decoded answer [tags] of the registry.  The
    set comprehension reads [tag['name']] of every tag and raises [KeyError]
    at the first tag without that key. *)
Fixpoint tag_names (tags : list (gmap string string)) : exception + gset string :=
  match tags with
  | [] => inr ∅
  | tag :: rest =>
      match tag !! "name" with
      | None => inl (KeyError "name")
      | Some n =>
          match tag_names rest with
          | inl e => inl e
          | inr names => inr ({[ n ]} ∪ names)
          end
      end
  end.

Definition _get_base_executor_version (jina_version : string)
    (tags : list (gmap string string)) : exception + string :=
  match tag_names tags with
  | inl e => inl e
  | inr name_set =>
      if decide (jina_version ∈ name_set) then inr jina_version else inr "master"
  end.

(** The line feed that ends the lines of the diagram. *)
Definition nl : string := String (Ascii.ascii_of_nat 10) EmptyString.

(** [range(n)] *)
Definition range (n : Z) : list nat := seq 0 (Z.to_nat n).

(** The [_mermaid_str] property. *)
Definition _mermaid_str (self : t) : exception + list string :=
  if negb (String.eqb (name self) "gateway") then
    let mermaid_graph :=
      ["subgraph " +:+ name self +:+ ";" +:+ nl; "direction LR;" +:+ nl] in
    let num_replicas := getattr (Namespace.replicas (args self)) 1 in
    let num_shards := getattr (Namespace.parallel (args self)) 1 in
    let uses := Namespace.uses (args self) in
    match
      (if 1 <? num_shards then
         let shard_names :=
           imap (λ i args, Namespace.name args +:+ "/shard-" +:+ pretty i)
                (deployments_of self) in
         let mermaid_graph :=
           mermaid_graph
           ++ mjoin ((λ shard_name,
                        ["subgraph " +:+ shard_name +:+ nl; "direction TB;" +:+ nl]
                        ++ ((λ replica_id,
                               shard_name +:+ "/replica-" +:+ pretty replica_id
                               +:+ "[" +:+ uses +:+ "]" +:+ nl) <$> range num_replicas)
                        ++ ["end" +:+ nl]) <$> shard_names) in
         let head_name := name self +:+ "/head" in
         let tail_name := name self +:+ "/tail" in
         match getfield "uses_before" (Namespace.uses_before (args self)) with
         | inl e => inl e
         | inr head_to_show =>
             let head_to_show :=
               match head_to_show with
               | None => head_name
               | Some h => if String.eqb h __default_executor__ then head_name else h
               end in
             match getfield "uses_after" (Namespace.uses_after (args self)) with
             | inl e => inl e
             | inr tail_to_show =>
                 let tail_to_show :=
                   match tail_to_show with
                   | None => tail_name
                   | Some t => if String.eqb t __default_executor__ then tail_name else t
                   end in
                 let mermaid_graph :=
                   if negb (String.eqb head_name EmptyString) then
                     mermaid_graph
                     ++ ((λ shard_name,
                            head_name +:+ "[" +:+ head_to_show +:+ "]:::HEADTAIL --> "
                            +:+ shard_name +:+ "[" +:+ uses +:+ "];") <$> shard_names)
                   else mermaid_graph in
                 let mermaid_graph :=
                   if negb (String.eqb tail_name EmptyString) then
                     mermaid_graph
                     ++ ((λ shard_name,
                            shard_name +:+ "[" +:+ uses +:+ "] --> " +:+ tail_name
                            +:+ "[" +:+ tail_to_show +:+ "]:::HEADTAIL;") <$> shard_names)
                   else mermaid_graph in
                 inr mermaid_graph
             end
         end
       else
         inr (mermaid_graph
              ++ ((λ replica_id,
                     name self +:+ "/replica-" +:+ pretty replica_id
                     +:+ "[" +:+ uses +:+ "];") <$> range num_replicas)))
    with
    | inl e => inl e
    | inr mermaid_graph => inr (mermaid_graph ++ ["end;"])
    end
  else inr [].

End Properties.

End K8sPod.

(** Modelled from the spec: the order in which [ExitFIFO.__exit__] runs the
    recorded exits; the class is not defined in this file.  Section 4.3 of
    the specification has the teardown reverse exactly the order of entry
    (the name of the class, for its part, suggests first in, first out). *)
Definition reverse_of_entry (callbacks : list K8sDeployment.t) : list K8sDeployment.t :=
  rev callbacks.

(** ** Reading a trace *)

(** The control-plane calls among the events. *)
Definition is_call (e : event) : bool :=
  match e with
  | Log _ _ _ | Sleep => false
  | _ => true
  end.

Definition calls (evs : list event) : list event := List.filter is_call evs.

Definition is_deploy (e : event) : bool :=
  match e with
  | DeployService _ => true
  | _ => false
  end.

(** The deletion that [close] asks for. *)
Definition delete_of (u : K8sDeployment.t) : event :=
  DeleteNamespacedDeployment (K8sDeployment.name u) (K8sDeployment.k8s_namespace u).

(** The events of a readiness loop. *)
Definition polling_event (u : K8sDeployment.t) (e : event) : Prop :=
  e = ListNamespacedPod (K8sDeployment.k8s_namespace u) ∨ e = Sleep.

(** The units of a pod in the order in which [start] enters them. *)
Definition units_in_order (pod : K8sPod.t) : list K8sDeployment.t :=
  option_list (K8sPod.k8s_head_deployment pod)
  ++ K8sPod.k8s_deployments pod
  ++ option_list (K8sPod.k8s_tail_deployment pod).

(** The pods of a listing that a unit takes for its own running pods. *)
Definition mine (u : K8sDeployment.t) (p : V1Pod) : bool :=
  bool_decide (labels (metadata p) !! "app" = Some (K8sDeployment.name u))
  && bool_decide (phase (status p) = "Running").

(** The distinct addresses of the running pods of a unit in a listing. *)
Definition running_ips (u : K8sDeployment.t) (items : list V1Pod) : gset (option string) :=
  list_to_set (pod_ip ∘ status <$> List.filter (mine u) items).

Definition labelled (p : V1Pod) : Prop := is_Some (labels (metadata p) !! "app").

(** From world [w] on, the successive pod listings asked for by unit [u] are
    answered by the successive elements of [listings]. *)
Definition answered {cluster : control_plane} (u : K8sDeployment.t)
    (w : world K8sDeployment.t) (listings : list (list V1Pod)) : Prop :=
  ∀ i items, listings !! i = Some items →
    list_namespaced_pod (clock w + i) (K8sDeployment.k8s_namespace u) = inr items.

(** What a readiness loop leaves in the trace for polls that did not end it. *)
Definition polling_events (u : K8sDeployment.t) (listings : list (list V1Pod)) : list event :=
  concat ((λ _, [ListNamespacedPod (K8sDeployment.k8s_namespace u); Sleep]) <$> listings).

(** The [deploy_service] calls among the events. *)
Definition deploys (evs : list event) : list deploy_service_call :=
  omap (λ e, match e with DeployService d => Some d | _ => None end) evs.

(** The name under which [start] creates the Service and Deployment of a
    unit. *)
Definition deployed_name {helpers : kubernetes_deployment} (u : K8sDeployment.t) : string :=
  if String.eqb (K8sDeployment.name u) "gateway"
  then K8sDeployment.name u else K8sDeployment.dns_name u.

(** What [K8sPod.start] does before it enters the first unit. *)
Definition start_prologue (pod : K8sPod.t) : list event :=
  [Log ("start_" +:+ K8sPod.name pod) "info"
     ("Create Namespace " +:+ quoted (Namespace.k8s_namespace (K8sPod.args pod))
      +:+ " for " +:+ quoted (K8sPod.name pod));
   CreateNamespace (Namespace.k8s_namespace (K8sPod.args pod))
     (getattr (Namespace.k8s_custom_resource_dir (K8sPod.args pod)) None)].

(** The events of a start or of a readiness wait: no deletion among them. *)
Definition starting_event (e : event) : Prop :=
  match e with
  | DeployService _ | ListNamespacedPod _ | Sleep => True
  | _ => False
  end.

(** ** Sample collaborators and inputs *)

(** A control plane that refuses to deploy the service called [refused]. *)
Definition refusing (refused : string) : control_plane :=
  {| create_namespace := λ _ _ _, None;
     deploy_service := λ _ d,
       if String.eqb (svc_name d) refused then Some (ApiException "refused") else None;
     list_namespaced_pod := λ _ _, inr [];
     delete_namespaced_deployment := λ _ _ _, inr "Success" |}.

(** A control plane whose pod listing is empty until time [n], where it
    raises. *)
Definition failing_at (n : nat) : control_plane :=
  {| create_namespace := λ _ _ _, None;
     deploy_service := λ _ _, None;
     list_namespaced_pod := λ m _,
       if (m <? n)%nat then inr [] else inl (ApiException "gone");
     delete_namespaced_deployment := λ _ _ _, inr "Success" |}.

(** A control plane on which the namespace cannot be created. *)
Definition without_namespace : control_plane :=
  {| create_namespace := λ _ _ _, Some (ApiException "forbidden");
     deploy_service := λ _ _, None;
     list_namespaced_pod := λ _ _, inr [];
     delete_namespaced_deployment := λ _ _ _, inr "Success" |}.

Definition unlabelled_pod (ip : string) : V1Pod :=
  {| metadata := {| labels := ∅ |};
     status := {| phase := "Running"; pod_ip := Some ip |} |}.

Fixpoint underscore_to_dash (s : string) : string :=
  match s with
  | EmptyString => EmptyString
  | String c rest =>
      String (if Ascii.eqb c "_"%char then "-"%char else c) (underscore_to_dash rest)
  end.

Definition sample_helpers : kubernetes_deployment :=
  {| to_dns_name := underscore_to_dash;
     get_image_name := λ uses, uses;
     get_cli_params := λ _ _, EmptyString;
     get_init_container_args := λ _, None;
     dictionary_to_cli_param := λ _, EmptyString |}.

Definition running_pod (app ip : string) : V1Pod :=
  {| metadata := {| labels := {[ "app" := app ]} |};
     status := {| phase := "Running"; pod_ip := Some ip |} |}.

(** A control plane on which every call succeeds and which lists [pods n]
    when asked at time [n]. *)
Definition obliging (pods : nat → list V1Pod) : control_plane :=
  {| create_namespace := λ _ _ _, None;
     deploy_service := λ _ _, None;
     list_namespaced_pod := λ n _, inr (pods n);
     delete_namespaced_deployment := λ _ _ _, inr "Success" |}.

(** A control plane on which every listing and every deletion raises. *)
Definition unreachable : control_plane :=
  {| create_namespace := λ _ _ _, None;
     deploy_service := λ _ _, None;
     list_namespaced_pod := λ _ _, inl (ApiException "unreachable");
     delete_namespaced_deployment := λ _ _ _, inl (ApiException "unreachable") |}.

Definition sample_args (parallel replicas : Z) (uses_after : option string) : Namespace.t :=
  {| Namespace.name := "image_data";
     Namespace.k8s_namespace := "test-flow";
     Namespace.noblock_on_start := true;
     Namespace.port_expose := 8080;
     Namespace.uses := "docker://executor";
     Namespace.uses_with := None;
     Namespace.parallel := Attr parallel;
     Namespace.replicas := Attr replicas;
     Namespace.uses_before := Attr None;
     Namespace.uses_after := Attr uses_after;
     Namespace.k8s_custom_resource_dir := Missing |}.

Definition initial : world K8sDeployment.t := World [] 0 [].

Definition sample_unit (name : string) (replicas : Z) : K8sDeployment.t :=
  K8sDeployment.__init__ name 8081 8082 [] "master" None
    (sample_args 1 replicas None) (sample_args 1 replicas None).

(** Nothing runs during the first two polls; from the third poll on two pods
    of [encoder] run, at two addresses. *)
Definition ready_at_third_poll : control_plane :=
  obliging (λ n, if (n <? 2)%nat then []
                 else [running_pod "encoder" "10.0.0.1"; running_pod "encoder" "10.0.0.2"]).

(** One pod of [encoder] runs during the first poll; it is gone at the
    second, where another one runs at another address. *)
Definition one_pod_at_a_time : control_plane :=
  obliging (λ n, match n with
                 | O => [running_pod "encoder" "10.0.0.1"]
                 | S _ => [running_pod "encoder" "10.0.0.2"]
                 end).

(** The arguments of [sample_args] for a pod that blocks on start. *)
Definition blocking_args (parallel replicas : Z) : Namespace.t :=
  {| Namespace.name := "image_data";
     Namespace.k8s_namespace := "test-flow";
     Namespace.noblock_on_start := false;
     Namespace.port_expose := 8080;
     Namespace.uses := "docker://executor";
     Namespace.uses_with := None;
     Namespace.parallel := Attr parallel;
     Namespace.replicas := Attr replicas;
     Namespace.uses_before := Attr None;
     Namespace.uses_after := Attr None;
     Namespace.k8s_custom_resource_dir := Missing |}.

(** Arguments as the gateway has them: no shard, replica or image
    attribute except the ones given. *)
Definition gateway_args (parallel : attr Z) : Namespace.t :=
  {| Namespace.name := "gateway";
     Namespace.k8s_namespace := "test-flow";
     Namespace.noblock_on_start := true;
     Namespace.port_expose := 8080;
     Namespace.uses := "BaseExecutor";
     Namespace.uses_with := None;
     Namespace.parallel := parallel;
     Namespace.replicas := Missing;
     Namespace.uses_before := Missing;
     Namespace.uses_after := Missing;
     Namespace.k8s_custom_resource_dir := Missing |}.

(** The pod that [__init__] returns, or a pod without units when it
    raises. *)
Definition constructed (pod_name : string) (args : Namespace.t) : K8sPod.t :=
  match K8sPod.__init__ "BaseExecutor" pod_name "master" args None with
  | inr pod => pod
  | inl _ =>
      {| K8sPod.name := pod_name;
         K8sPod.args := args;
         K8sPod.needs := ∅;
         K8sPod.deployment_args :=
           {| head_deployment := None; tail_deployment := None; deployments := [] |};
         K8sPod.version := "master";
         K8sPod.fixed_head_port_in := 8081;
         K8sPod.fixed_tail_port_out := 8082;
         K8sPod.k8s_head_deployment := None;
         K8sPod.k8s_tail_deployment := None;
         K8sPod.k8s_deployments := [] |}
  end.

(** Three shards of two replicas, a pass-through head and a merging tail. *)
Definition sample_pod : K8sPod.t :=
  constructed "image_data" (sample_args 3 2 (Some "docker://merger")).

(** The [i]-th unit of a pod in start order. *)
Definition unit_at (pod : K8sPod.t) (i : nat) : K8sDeployment.t :=
  default (sample_unit "none" 1) (units_in_order pod !! i).

(** ** Topology planning *)

Section PlanningFacts.

Variable __default_executor__ : string.

Lemma parse_deployment_args_present needs args ub ua :
  Namespace.uses_before args = Attr ub →
  Namespace.uses_after args = Attr ua →
  _parse_deployment_args __default_executor__ needs args =
  inr {| head_deployment :=
           if head_condition needs args
           then Some (Namespace.copy_with_uses args (or_else ub __default_executor__))
           else None;
         tail_deployment :=
           if tail_condition args
           then Some (Namespace.copy_with_uses args (or_else ua __default_executor__))
           else None;
         deployments :=
           replicate (Z.to_nat (getattr (Namespace.parallel args) 1)) args |}.
Proof.
  intros Hb Ha. unfold _parse_deployment_args. rewrite Hb, Ha. simpl.
  destruct (head_condition needs args), (tail_condition args); reflexivity.
Qed.

Lemma head_condition_iff needs args :
  head_condition needs args = true ↔
  1 < getattr (Namespace.parallel args) 1
  ∨ (1 < Z.of_nat (size needs) ∧ 1 < getattr (Namespace.replicas args) 1)
  ∨ truthy (getattr (Namespace.uses_before args) None) = true.
Proof.
  unfold head_condition.
  rewrite !orb_true_iff, andb_true_iff, !Z.ltb_lt. tauto.
Qed.

Lemma tail_condition_iff args :
  tail_condition args = true ↔
  1 < getattr (Namespace.parallel args) 1
  ∨ truthy (getattr (Namespace.uses_after args) None) = true.
Proof.
  unfold tail_condition. rewrite orb_true_iff, Z.ltb_lt. tauto.
Qed.

Lemma or_else_set o s :
  o = Some s → s ≠ EmptyString → or_else o __default_executor__ = s.
Proof.
  intros -> Hs. simpl. destruct (String.eqb_spec s EmptyString); [contradiction | reflexivity].
Qed.

Lemma or_else_unset o :
  truthy o = false → or_else o __default_executor__ = __default_executor__.
Proof.
  destruct o as [s|]; simpl; [|reflexivity]. intros ->. reflexivity.
Qed.

End PlanningFacts.

(** C2.  For every argument set that carries the [uses_before] and
    [uses_after] attributes and whose shard count [parallel] is at least 1,
    [_parse_deployment_args] returns a plan with exactly [parallel] shard
    arguments, each the argument set itself; with a head iff [parallel > 1],
    or [len(needs) > 1] and [replicas > 1], or [uses_before] is set; with a
    tail iff [parallel > 1] or [uses_after] is set.  The head is a copy of
    the arguments whose image is [uses_before] when set and the default
    pass-through image otherwise, and likewise the tail with [uses_after].
    "Set" is Python's truth value: neither [None] nor the empty string. *)
Theorem parse_deployment_args_topology
    (__default_executor__ : string) (needs : gset string) (args : Namespace.t)
    (ub ua : option string) :
  Namespace.uses_before args = Attr ub →
  Namespace.uses_after args = Attr ua →
  1 ≤ getattr (Namespace.parallel args) 1 →
  ∃ plan,
    _parse_deployment_args __default_executor__ needs args = inr plan
    ∧ Z.of_nat (length (deployments plan)) = getattr (Namespace.parallel args) 1
    ∧ Forall (eq args) (deployments plan)
    ∧ (is_Some (head_deployment plan) ↔
       1 < getattr (Namespace.parallel args) 1
       ∨ (1 < Z.of_nat (size needs) ∧ 1 < getattr (Namespace.replicas args) 1)
       ∨ truthy ub = true)
    ∧ (is_Some (tail_deployment plan) ↔
       1 < getattr (Namespace.parallel args) 1 ∨ truthy ua = true)
    ∧ (∀ head, head_deployment plan = Some head →
         head = Namespace.copy_with_uses args (Namespace.uses head)
         ∧ (∀ s, ub = Some s → s ≠ EmptyString → Namespace.uses head = s)
         ∧ (truthy ub = false → Namespace.uses head = __default_executor__))
    ∧ (∀ tail, tail_deployment plan = Some tail →
         tail = Namespace.copy_with_uses args (Namespace.uses tail)
         ∧ (∀ s, ua = Some s → s ≠ EmptyString → Namespace.uses tail = s)
         ∧ (truthy ua = false → Namespace.uses tail = __default_executor__)).
Proof.
  intros Hb Ha Hpar.
  eexists. split; [apply (parse_deployment_args_present _ _ _ _ _ Hb Ha)|]. simpl.
  split; [rewrite length_replicate; lia|].
  split; [apply Forall_replicate; reflexivity|].
  pose proof (head_condition_iff needs args) as Hh.
  pose proof (tail_condition_iff args) as Ht.
  rewrite Hb in Hh. rewrite Ha in Ht. simpl in Hh, Ht.
  split; [|split; [|split]].
  - rewrite <- Hh. destruct (head_condition needs args); split; intros H;
      try reflexivity; try discriminate; eauto. destruct H; discriminate.
  - rewrite <- Ht. destruct (tail_condition args); split; intros H;
      try reflexivity; try discriminate; eauto. destruct H; discriminate.
  - intros head Hhead. destruct (head_condition needs args); [|discriminate].
    injection Hhead as <-. simpl. split; [reflexivity|].
    split; [apply or_else_set | apply or_else_unset].
  - intros tail Htail. destruct (tail_condition args); [|discriminate].
    injection Htail as <-. simpl. split; [reflexivity|].
    split; [apply or_else_set | apply or_else_unset].
Qed.

Lemma parse_deployment_args_topology_witness :
  ∃ plan,
    _parse_deployment_args "BaseExecutor" ∅ (sample_args 3 2 (Some "docker://merger"))
    = inr plan
    ∧ Z.of_nat (length (deployments plan)) = 3
    ∧ is_Some (head_deployment plan)
    ∧ (∀ tail, tail_deployment plan = Some tail →
         Namespace.uses tail = "docker://merger").
Proof.
  destruct (parse_deployment_args_topology "BaseExecutor" ∅
              (sample_args 3 2 (Some "docker://merger")) None (Some "docker://merger"))
    as (plan & Hplan & Hlen & _ & Hhead & _ & _ & Htail).
  - reflexivity.
  - reflexivity.
  - simpl. lia.
  - exists plan. split; [exact Hplan|]. split; [exact Hlen|].
    split.
    + apply Hhead. left. simpl. lia.
    + intros tail Ht. destruct (Htail tail Ht) as (_ & Hset & _).
      apply Hset; [reflexivity | discriminate].
Defined.

(** C4, as stated, fails: a shard count or a replica count below 1 is not
    rejected.  With [parallel = 0] and with [replicas = 0] the constructor
    returns a pod. *)
Lemma nonpositive_counts_are_accepted :
  ¬ (∀ (__default_executor__ pod_name version : string) (args : Namespace.t)
       (needs : option (gset string)),
       getattr (Namespace.parallel args) 1 < 1 ∨ getattr (Namespace.replicas args) 1 < 1 →
       ∃ e, K8sPod.__init__ __default_executor__ pod_name version args needs = inl e).
Proof.
  intros H.
  destruct (H "BaseExecutor" "image_data" "master" (sample_args 0 0 None) None)
    as [e He].
  - left. simpl. lia.
  - discriminate He.
Qed.

(** C4, amended.  Take an argument set that carries the [uses_before] and
    [uses_after] attributes and whose shard count or replica count is below
    1, and the version of the base image as the registry lookup of
    [__init__] resolved it.  The counts are not rejected: planning and the
    construction of the units return a pod whose plan is the one of
    [_parse_deployment_args], with [max(parallel, 0)] shard units, hence none
    when [parallel < 1].  They are a function of the arguments and of that
    version, in which no control-plane call is made. *)
Theorem init_accepts_nonpositive_counts
    (__default_executor__ pod_name version : string) (args : Namespace.t)
    (needs : option (gset string)) (ub ua : option string) :
  Namespace.uses_before args = Attr ub →
  Namespace.uses_after args = Attr ua →
  getattr (Namespace.parallel args) 1 < 1 ∨ getattr (Namespace.replicas args) 1 < 1 →
  ∃ pod,
    K8sPod.__init__ __default_executor__ pod_name version args needs = inr pod
    ∧ _parse_deployment_args __default_executor__ (default ∅ needs) args
      = inr (K8sPod.deployment_args pod)
    ∧ Z.of_nat (length (K8sPod.k8s_deployments pod))
      = Z.max (getattr (Namespace.parallel args) 1) 0
    ∧ (getattr (Namespace.parallel args) 1 < 1 → K8sPod.k8s_deployments pod = []).
Proof.
  intros Hb Ha _. unfold K8sPod.__init__, K8sPod._parse_args.
  rewrite (parse_deployment_args_present _ _ _ _ _ Hb Ha).
  eexists. split; [reflexivity|]. simpl. split; [reflexivity|].
  rewrite length_imap, length_replicate. split; [lia|].
  intros Hlt. replace (Z.to_nat (getattr (Namespace.parallel args) 1)) with 0%nat by lia.
  reflexivity.
Qed.

Lemma init_accepts_nonpositive_counts_witness :
  ∃ pod,
    K8sPod.__init__ "BaseExecutor" "image_data" "master" (sample_args 0 0 None) None
    = inr pod
    ∧ K8sPod.k8s_deployments pod = [].
Proof.
  destruct (init_accepts_nonpositive_counts "BaseExecutor" "image_data" "master"
              (sample_args 0 0 None) None None None)
    as (pod & Hpod & _ & _ & Hnone).
  - reflexivity.
  - reflexivity.
  - left. simpl. lia.
  - exists pod. split; [exact Hpod|]. apply Hnone. simpl. lia.
Defined.

(** ** Construction of the shard units *)

Lemma init_shards (__default_executor__ pod_name version : string)
    (args : Namespace.t) (needs : option (gset string)) (pod : K8sPod.t) :
  K8sPod.__init__ __default_executor__ pod_name version args needs = inr pod →
  K8sPod.k8s_deployments pod =
  imap (λ i a,
          K8sDeployment.__init__
            (if bool_decide (1 < length (deployments (K8sPod.deployment_args pod)))%nat
             then pod_name +:+ "-" +:+ pretty i else pod_name)
            8081 8082 [] version None args a)
       (deployments (K8sPod.deployment_args pod)).
Proof.
  unfold K8sPod.__init__.
  destruct (K8sPod._parse_args __default_executor__ (default ∅ needs) args); [discriminate|].
  intros [= <-]. reflexivity.
Qed.

(** The shard units take the same arguments and every one of them is built
    with [shard_id=None]. *)
Lemma init_shards_share_arguments (__default_executor__ pod_name version : string)
    (args : Namespace.t) (needs : option (gset string)) (pod : K8sPod.t) :
  K8sPod.__init__ __default_executor__ pod_name version args needs = inr pod →
  Forall (λ u, K8sDeployment.shard_id u = None
               ∧ K8sDeployment.common_args u = args
               ∧ K8sDeployment.deployment_args u = args
               ∧ K8sDeployment.version u = version)
         (K8sPod.k8s_deployments pod).
Proof.
  intros Hpod. rewrite (init_shards _ _ _ _ _ _ Hpod).
  assert (Forall (eq args) (deployments (K8sPod.deployment_args pod))) as Hall.
  { revert Hpod. unfold K8sPod.__init__, K8sPod._parse_args, _parse_deployment_args.
    repeat (case_match; try discriminate); intros [= <-]; simplify_eq/=;
      apply Forall_replicate; reflexivity. }
  apply Forall_forall. intros u Hu.
  apply elem_of_lookup_imap in Hu as (i & a & -> & Hi).
  rewrite Forall_forall in Hall.
  rewrite <- (Hall a) by (eapply list_elem_of_lookup_2; exact Hi). auto.
Qed.

(** The names of the shard units: the pod's name for a single shard, the
    name followed by the index otherwise. *)
Lemma init_shard_names (__default_executor__ pod_name version : string)
    (args : Namespace.t) (needs : option (gset string)) (pod : K8sPod.t) :
  K8sPod.__init__ __default_executor__ pod_name version args needs = inr pod →
  ∀ i u, K8sPod.k8s_deployments pod !! i = Some u →
    K8sDeployment.name u =
    if bool_decide (length (K8sPod.k8s_deployments pod) = 1%nat)
    then pod_name else pod_name +:+ "-" +:+ pretty i.
Proof.
  intros Hpod i u Hu. pose proof (init_shards _ _ _ _ _ _ Hpod) as Hs.
  assert (length (K8sPod.k8s_deployments pod)
          = length (deployments (K8sPod.deployment_args pod))) as Hlen
    by (rewrite Hs at 1; apply length_imap).
  rewrite Hs in Hu. apply list_lookup_imap_Some in Hu as (a & Ha & ->). simpl.
  apply lookup_lt_Some in Ha. rewrite Hlen.
  repeat case_bool_decide; try reflexivity; lia.
Qed.

(** C3, at the failing input.  With three shards the units are named
    [image_data-0], [image_data-1], [image_data-2], and each of them carries
    the shard index [None]: the indices are not distinct. *)
Theorem three_shards_carry_no_index :
  ∃ pod,
    K8sPod.__init__ "BaseExecutor" "image_data" "master" (sample_args 3 2 None) None
    = inr pod
    ∧ K8sDeployment.name <$> K8sPod.k8s_deployments pod
      = ["image_data-0"; "image_data-1"; "image_data-2"]
    ∧ K8sDeployment.shard_id <$> K8sPod.k8s_deployments pod = [None; None; None].
Proof. eexists. split; [reflexivity|]. split; reflexivity. Qed.

(** ** One unit: how its methods run *)

Section UnitRuns.

Context {helpers : kubernetes_deployment} {cluster : control_plane}.
Variable __default_executor__ : string.

Implicit Types (u : K8sDeployment.t) (w : world K8sDeployment.t).

Lemma world_unchanged w : World (trace w ++ []) (clock w + 0) (exit_callbacks w) = w.
Proof. destruct w. simpl. rewrite app_nil_r, Nat.add_0_r. reflexivity. Qed.

(** [close] always returns: it asks for one deletion and logs one line,
    at level [success] exactly when the deletion answered [Success]. *)
Lemma close_run u w :
  ∃ level message,
    K8sDeployment.close u w =
    (Ret tt,
     World (trace w ++ [delete_of u; Log ("close_" +:+ K8sDeployment.name u) level message])
           (S (clock w)) (exit_callbacks w))
    ∧ (level = "success" ↔
       delete_namespaced_deployment (clock w) (K8sDeployment.name u)
         (K8sDeployment.k8s_namespace u) = inr "Success").
Proof.
  unfold K8sDeployment.close, try_except, mbind, M_bind,
    client_delete_namespaced_deployment, emit, called, delete_of.
  destruct (delete_namespaced_deployment _ _ _) as [e|resp]; simpl.
  - do 2 eexists. rewrite <- app_assoc. split; [reflexivity|].
    split; discriminate.
  - destruct (String.eqb_spec resp "Success") as [->|Hne]; simpl;
      do 2 eexists; rewrite <- app_assoc; (split; [reflexivity|]).
    + split; reflexivity.
    + split; [discriminate | congruence].
Qed.

Lemma for_each_close_run (us : list K8sDeployment.t) w :
  ∃ evs,
    for_each K8sDeployment.close us w =
    (Ret tt, World (trace w ++ evs) (clock w + length us) (exit_callbacks w))
    ∧ calls evs = delete_of <$> us.
Proof.
  revert w. induction us as [|u us IH]; intros w; simpl.
  - exists []. rewrite world_unchanged. split; reflexivity.
  - unfold mbind, M_bind.
    destruct (close_run u w) as (level & message & -> & _).
    destruct (IH (World (trace w ++ [delete_of u; Log ("close_" +:+ K8sDeployment.name u) level message])
                        (S (clock w)) (exit_callbacks w))) as (evs & -> & Hevs).
    simpl. eexists. rewrite <- app_assoc, Nat.add_succ_r. split; [reflexivity|].
    simpl. rewrite Hevs. reflexivity.
Qed.

(** The readiness loop only lists pods and sleeps, and leaves the exit
    stack alone. *)
Lemma poll_run fuel u pod_ips w :
  ∃ r evs n,
    K8sDeployment.poll fuel u pod_ips w =
    (r, World (trace w ++ evs) (clock w + n) (exit_callbacks w))
    ∧ Forall (polling_event u) evs.
Proof.
  revert pod_ips w. induction fuel as [|fuel IH]; intros pod_ips w; simpl.
  - exists Spin, [], 0%nat. rewrite world_unchanged. split; [reflexivity | constructor].
  - unfold mbind, M_bind, client_list_namespaced_pod, called.
    destruct (list_namespaced_pod _ _) as [e|items].
    + exists (Raise e), [ListNamespacedPod (K8sDeployment.k8s_namespace u)], 1%nat.
      rewrite Nat.add_1_r. split; [reflexivity|]. repeat constructor.
    + destruct (K8sDeployment.scan_pods u items pod_ips) as [[| |e] pod_ips'].
      * exists (Ret tt), [ListNamespacedPod (K8sDeployment.k8s_namespace u)], 1%nat.
        rewrite Nat.add_1_r. split; [reflexivity|]. repeat constructor.
      * unfold emit. simpl.
        match goal with |- context [K8sDeployment.poll fuel u pod_ips' ?w1] =>
          destruct (IH pod_ips' w1) as (r & evs & n & -> & Hevs) end.
        simpl. exists r, (ListNamespacedPod (K8sDeployment.k8s_namespace u) :: Sleep :: evs), (S n).
        rewrite <- !app_assoc, Nat.add_succ_r. split; [reflexivity|].
        constructor; [left; reflexivity|]. constructor; [right; reflexivity | exact Hevs].
      * exists (Raise e), [ListNamespacedPod (K8sDeployment.k8s_namespace u)], 1%nat.
        rewrite Nat.add_1_r. split; [reflexivity|]. repeat constructor.
Qed.

End UnitRuns.

Section UnitStart.

Context {helpers : kubernetes_deployment} {cluster : control_plane}.
Variable __default_executor__ : string.

Implicit Types (u : K8sDeployment.t) (w : world K8sDeployment.t).

(** [start] makes exactly one [deploy_service] call, first, and then only
    polls; it leaves the exit stack alone and returns the unit itself. *)
Lemma start_run fuel u w :
  ∃ d r evs n,
    K8sDeployment.start __default_executor__ fuel u w =
    (r, World (trace w ++ DeployService d :: evs) (clock w + S n) (exit_callbacks w))
    ∧ Forall (polling_event u) evs
    ∧ svc_name d = (if String.eqb (K8sDeployment.name u) "gateway"
                    then K8sDeployment.name u else K8sDeployment.dns_name u)
    ∧ svc_namespace d = K8sDeployment.k8s_namespace u
    ∧ svc_replicas d = (if String.eqb (K8sDeployment.name u) "gateway"
                        then 1 else K8sDeployment.num_replicas u)
    ∧ pull_policy d = (if String.eqb (K8sDeployment.name u) "gateway"
                       then "Always" else "IfNotPresent")
    ∧ (∀ a, r = Ret a → a = u).
Proof.
  unfold K8sDeployment.start.
  assert (∀ (m : M K8sDeployment.t unit) d,
            m = kubernetes_deployment_deploy_service d →
            ∃ r evs n,
              (m ;; (if negb (Namespace.noblock_on_start (K8sDeployment.common_args u))
                     then K8sDeployment.wait_start_success fuel u else mret tt) ;;
               mret u) w =
              (r, World (trace w ++ DeployService d :: evs) (clock w + S n) (exit_callbacks w))
              ∧ Forall (polling_event u) evs ∧ (∀ a, r = Ret a → a = u)) as Hrun.
  { intros m d ->.
    unfold mbind, M_bind, kubernetes_deployment_deploy_service, called.
    destruct (deploy_service (clock w) d) as [e|].
    - exists (Raise e), [], 0%nat. rewrite Nat.add_1_r.
      split; [reflexivity|]. split; [constructor | discriminate].
    - destruct (negb _).
      + unfold K8sDeployment.wait_start_success.
        match goal with |- context [K8sDeployment.poll fuel u ∅ ?w1] =>
          destruct (poll_run fuel u ∅ w1) as (r & evs & n & -> & Hevs) end.
        simpl.
        destruct r as [[]|e|].
        * exists (Ret u), evs, n. rewrite <- app_assoc, Nat.add_succ_r.
          split; [reflexivity|]. split; [exact Hevs|].
          intros a [= <-]. reflexivity.
        * exists (Raise e), evs, n. rewrite <- app_assoc, Nat.add_succ_r.
          split; [reflexivity|]. split; [exact Hevs | discriminate].
        * exists Spin, evs, n. rewrite <- app_assoc, Nat.add_succ_r.
          split; [reflexivity|]. split; [exact Hevs | discriminate].
      + exists (Ret u), [], 0%nat. unfold mret, M_ret. rewrite Nat.add_1_r.
        split; [reflexivity|]. split; [constructor|]. intros a [= <-]. reflexivity. }
  destruct (String.eqb (K8sDeployment.name u) "gateway").
  - edestruct Hrun as (r & evs & n & Hr & Hevs & Hret);
      [unfold K8sDeployment._deploy_gateway; reflexivity|].
    do 4 eexists. split; [exact Hr|]. simpl. repeat apply conj; auto.
  - unfold K8sDeployment._deploy_runtime.
    destruct (String.eqb _ __default_executor__);
      (edestruct Hrun as (r & evs & n & Hr & Hevs & Hret); [reflexivity|]);
      do 4 eexists; (split; [exact Hr|]); simpl; repeat apply conj; auto.
Qed.

(** C6.  Whatever the control plane answers to the deletion (a success
    status, another status, or an exception), [close] of a unit returns
    normally: it asks once for the deletion of the deployment of the
    unit's name and logs one line, at level [success] exactly when the
    answer was [Success].  No state of the unit is consulted, so closing a
    unit that was never started returns as well; and closing any sequence
    of units, with repetitions or not, returns normally after asking for
    the deletion of each of them in turn: a failed deletion stops none of
    the others. *)
Theorem close_never_raises :
  (∀ u w, ∃ level message,
      K8sDeployment.close u w =
      (Ret tt,
       World (trace w ++ [delete_of u;
                          Log ("close_" +:+ K8sDeployment.name u) level message])
             (S (clock w)) (exit_callbacks w))
      ∧ (level = "success" ↔
         delete_namespaced_deployment (clock w) (K8sDeployment.name u)
           (K8sDeployment.k8s_namespace u) = inr "Success"))
  ∧ (∀ u w, ∃ w', (K8sDeployment.close u ;; K8sDeployment.close u) w = (Ret tt, w'))
  ∧ (∀ (us : list K8sDeployment.t) w, ∃ evs,
      for_each K8sDeployment.close us w =
      (Ret tt, World (trace w ++ evs) (clock w + length us) (exit_callbacks w))
      ∧ calls evs = delete_of <$> us).
Proof.
  split; [exact close_run|]. split; [|exact for_each_close_run].
  intros u w. unfold mbind, M_bind.
  destruct (close_run u w) as (l1 & m1 & -> & _).
  match goal with |- context [K8sDeployment.close u ?w1] =>
    destruct (close_run u w1) as (l2 & m2 & -> & _) end.
  eexists. reflexivity.
Qed.

(** C8.  [start] of a unit makes one [deploy_service] call, before anything
    else.  For the unit named [gateway] the call asks for 1 replica and
    pull policy [Always], whatever the configured [replicas]; for every
    other unit it asks for the configured replica count and pull policy
    [IfNotPresent].  What follows the call is readiness polling only. *)
Theorem start_deploys_by_kind fuel u w :
  ∃ (d : deploy_service_call) r (evs : list event) w',
    K8sDeployment.start __default_executor__ fuel u w = (r, w')
    ∧ trace w' = (trace w ++ DeployService d :: evs)%list
    ∧ Forall (polling_event u) evs
    ∧ svc_replicas d = (if String.eqb (K8sDeployment.name u) "gateway"
                        then 1
                        else getattr (Namespace.replicas (K8sDeployment.common_args u)) 1)
    ∧ pull_policy d = (if String.eqb (K8sDeployment.name u) "gateway"
                       then "Always" else "IfNotPresent").
Proof.
  destruct (start_run fuel u w) as (d & r & evs & n & Hrun & Hevs & _ & _ & Hrep & Hpull & _).
  exists d, r, evs. eexists. split; [exact Hrun|]. simpl. repeat apply conj; auto.
Qed.


End UnitStart.

(** ** The readiness loop *)

Section Readiness.

Context {cluster : control_plane}.

Implicit Types (u : K8sDeployment.t) (w : world K8sDeployment.t)
  (items : list V1Pod) (pod_ips : gset (option string)).

Lemma corresponds_to_me_labelled u p :
  labelled p → K8sDeployment.corresponds_to_me u p = inr (mine u p).
Proof.
  unfold labelled, K8sDeployment.corresponds_to_me, mine.
  intros [app Happ]. rewrite Happ. f_equal. f_equal.
  apply bool_decide_ext. split; congruence.
Qed.

Lemma running_ips_nil u : running_ips u [] = ∅.
Proof. reflexivity. Qed.

Lemma running_ips_cons u p items :
  running_ips u (p :: items) =
  if mine u p then {[ pod_ip (status p) ]} ∪ running_ips u items
  else running_ips u items.
Proof. unfold running_ips. simpl. destruct (mine u p); reflexivity. Qed.

Lemma running_ips_app u items1 items2 :
  running_ips u (items1 ++ items2) = running_ips u items1 ∪ running_ips u items2.
Proof.
  unfold running_ips. rewrite List.filter_app, fmap_app.
  apply leibniz_equiv, list_to_set_app.
Qed.

(** The set only grows during a pass over a listing. *)
Lemma scan_pods_grows u items pod_ips :
  pod_ips ⊆ (K8sDeployment.scan_pods u items pod_ips).2.
Proof.
  revert pod_ips. induction items as [|p items IH]; intros pod_ips; simpl; [done|].
  destruct (K8sDeployment.corresponds_to_me u p) as [e|[|]]; simpl; [done| |apply IH].
  case_bool_decide; simpl; [set_solver|].
  etrans; [|apply IH]. set_solver.
Qed.

(** A pass over a listing of labelled pods, started below the replica
    count: it returns when the addresses seen so far, with those of the
    listing, reach the count; otherwise it ends with all of them
    collected. *)
Lemma scan_pods_outcome u items pod_ips :
  Forall labelled items →
  Z.of_nat (size pod_ips) < K8sDeployment.num_replicas u →
  (K8sDeployment.num_replicas u ≤ Z.of_nat (size (running_ips u items ∪ pod_ips)) →
   (K8sDeployment.scan_pods u items pod_ips).1 = K8sDeployment.Returned)
  ∧ (Z.of_nat (size (running_ips u items ∪ pod_ips)) < K8sDeployment.num_replicas u →
     K8sDeployment.scan_pods u items pod_ips
     = (K8sDeployment.Exhausted, running_ips u items ∪ pod_ips)).
Proof.
  intros Hlab. revert pod_ips.
  induction Hlab as [|p items Hp Hlab IH]; intros pod_ips Hlt.
  - rewrite running_ips_nil, (left_id_L ∅ (∪)). simpl. split; [lia | reflexivity].
  - simpl. rewrite (corresponds_to_me_labelled u p Hp), running_ips_cons.
    destruct (mine u p); [|apply IH; exact Hlt].
    assert ({[pod_ip (status p)]} ∪ running_ips u items ∪ pod_ips
            = running_ips u items ∪ ({[pod_ip (status p)]} ∪ pod_ips)) as -> by set_solver.
    case_bool_decide as Hsize; simpl.
    + split; [reflexivity|]. intros Hsmall. exfalso.
      assert (size ({[pod_ip (status p)]} ∪ pod_ips)
              ≤ size (running_ips u items ∪ ({[pod_ip (status p)]} ∪ pod_ips)))%nat
        by (apply subseteq_size; set_solver).
      lia.
    + apply IH.
      assert (size ({[pod_ip (status p)]} ∪ pod_ips) ≤ S (size pod_ips))%nat.
      { rewrite size_union_alt, size_singleton.
        assert (size (pod_ips ∖ {[pod_ip (status p)]}) ≤ size pod_ips)%nat
          by (apply subseteq_size; set_solver).
        lia. }
      lia.
Qed.

(** One poll that does not end the loop: the set it collected is the set
    the next poll starts from. *)
Lemma poll_step_exhausted fuel u pod_ips pod_ips' w items :
  list_namespaced_pod (clock w) (K8sDeployment.k8s_namespace u) = inr items →
  K8sDeployment.scan_pods u items pod_ips = (K8sDeployment.Exhausted, pod_ips') →
  K8sDeployment.poll (S fuel) u pod_ips w =
  K8sDeployment.poll fuel u pod_ips'
    (World (trace w ++ [ListNamespacedPod (K8sDeployment.k8s_namespace u); Sleep])
           (S (clock w)) (exit_callbacks w)).
Proof.
  intros Hlist Hscan. simpl.
  unfold mbind, M_bind, client_list_namespaced_pod, called, emit.
  rewrite Hlist, Hscan. simpl. rewrite <- app_assoc. reflexivity.
Qed.

Lemma poll_step_returned fuel u pod_ips w items :
  list_namespaced_pod (clock w) (K8sDeployment.k8s_namespace u) = inr items →
  (K8sDeployment.scan_pods u items pod_ips).1 = K8sDeployment.Returned →
  K8sDeployment.poll (S fuel) u pod_ips w =
  (Ret tt,
   World (trace w ++ [ListNamespacedPod (K8sDeployment.k8s_namespace u)])
         (S (clock w)) (exit_callbacks w)).
Proof.
  intros Hlist Hscan. simpl.
  unfold mbind, M_bind, client_list_namespaced_pod, called.
  rewrite Hlist. destruct (K8sDeployment.scan_pods u items pod_ips) as [r s].
  simpl in Hscan. subst r. reflexivity.
Qed.

Lemma answered_cons u w items listings :
  answered u w (items :: listings) →
  list_namespaced_pod (clock w) (K8sDeployment.k8s_namespace u) = inr items
  ∧ ∀ evs cbs, answered u (World evs (S (clock w)) cbs) listings.
Proof.
  intros Hans. split.
  - rewrite <- (Nat.add_0_r (clock w)). apply Hans. reflexivity.
  - intros evs cbs i items' Hi. simpl.
    rewrite <- Nat.add_succ_r. apply Hans. exact Hi.
Qed.

(** Polls that leave the collected set below the replica count: the loop
    goes through them, accumulating. *)
Lemma poll_advance u listings :
  ∀ fuel pod_ips w,
    answered u w listings →
    Forall (Forall labelled) listings →
    Z.of_nat (size (running_ips u (concat listings) ∪ pod_ips))
    < K8sDeployment.num_replicas u →
    K8sDeployment.poll (length listings + fuel) u pod_ips w =
    K8sDeployment.poll fuel u (running_ips u (concat listings) ∪ pod_ips)
      (World (trace w ++ polling_events u listings)
             (clock w + length listings) (exit_callbacks w)).
Proof.
  induction listings as [|items listings IH]; intros fuel pod_ips w Hans Hlab Hlt.
  - simpl. rewrite running_ips_nil, (left_id_L ∅ (∪)).
    unfold polling_events. simpl. rewrite world_unchanged. reflexivity.
  - apply answered_cons in Hans as [Hnow Hlater].
    apply Forall_cons in Hlab as [Hitems Hlab].
    simpl concat in Hlt. rewrite running_ips_app in Hlt.
    assert (running_ips u items ∪ running_ips u (concat listings) ∪ pod_ips
            = running_ips u (concat listings) ∪ (running_ips u items ∪ pod_ips)) as Heq
      by set_solver.
    rewrite Heq in Hlt.
    assert (size (running_ips u items ∪ pod_ips)
            ≤ size (running_ips u (concat listings) ∪ (running_ips u items ∪ pod_ips)))%nat
      as Hle1 by (apply subseteq_size; set_solver).
    assert (size pod_ips ≤ size (running_ips u items ∪ pod_ips))%nat
      as Hle2 by (apply subseteq_size; set_solver).
    simpl length. rewrite Nat.add_succ_l.
    rewrite (poll_step_exhausted _ u pod_ips (running_ips u items ∪ pod_ips) w items Hnow).
    + rewrite IH; [|apply Hlater|exact Hlab|exact Hlt].
      simpl concat. rewrite running_ips_app, Heq.
      unfold polling_events. simpl. rewrite <- app_assoc, Nat.add_succ_r. reflexivity.
    + apply scan_pods_outcome; [exact Hitems | lia | lia].
Qed.

(** A listed pod without an [app] label makes the pass, and with it the
    wait, raise [KeyError]. *)
Lemma scan_pods_unlabelled u p items pod_ips :
  labels (metadata p) !! "app" = None →
  K8sDeployment.scan_pods u (p :: items) pod_ips
  = (K8sDeployment.Failed (KeyError "app"), pod_ips).
Proof.
  intros Hnone. simpl. unfold K8sDeployment.corresponds_to_me. rewrite Hnone. reflexivity.
Qed.

(** The size of the set is compared with the replica count only after an
    address was added, so a unit that asks for no replica is never found
    ready. *)
Lemma scan_pods_without_replicas u items pod_ips :
  K8sDeployment.num_replicas u ≤ 0 →
  (K8sDeployment.scan_pods u items pod_ips).1 ≠ K8sDeployment.Returned.
Proof.
  intros Hnone. revert pod_ips.
  induction items as [|p items IH]; intros pod_ips; simpl; [discriminate|].
  destruct (K8sDeployment.corresponds_to_me u p) as [e|[|]]; simpl;
    [discriminate| |apply IH].
  case_bool_decide as Hsize; [|apply IH].
  rewrite size_union_alt, size_singleton in Hsize. lia.
Qed.

(** X19.  A unit that asks for no replica, or for a negative number of
    them, is never found ready: whatever the control plane lists and however
    long it polls, its readiness wait does not return. *)
Lemma wait_without_replicas fuel u w :
  K8sDeployment.num_replicas u ≤ 0 →
  (K8sDeployment.wait_start_success fuel u w).1 ≠ Ret tt.
Proof.
  intros Hnone. unfold K8sDeployment.wait_start_success. generalize (∅ : gset (option string)).
  revert w. induction fuel as [|fuel IH]; intros w pod_ips; simpl; [discriminate|].
  unfold mbind, M_bind, client_list_namespaced_pod, called, emit.
  destruct (list_namespaced_pod _ _) as [e|items]; [discriminate|].
  pose proof (scan_pods_without_replicas u items pod_ips Hnone) as Hscan.
  destruct (K8sDeployment.scan_pods u items pod_ips) as [[| |e] pod_ips'];
    [contradiction|apply IH|discriminate].
Qed.

End Readiness.

Section ReadinessClaims.

Context {cluster : control_plane}.

Implicit Types (u : K8sDeployment.t) (w : world K8sDeployment.t).

Lemma wait_returns_at u w (listings : list (list V1Pod)) (items : list V1Pod) :
  answered u w (listings ++ [items]) →
  Forall (Forall labelled) (listings ++ [items]) →
  Z.of_nat (size (running_ips u (concat listings))) < K8sDeployment.num_replicas u →
  K8sDeployment.num_replicas u
  ≤ Z.of_nat (size (running_ips u (concat listings ++ items))) →
  (∀ fuel, (fuel ≤ length listings)%nat →
     (K8sDeployment.wait_start_success fuel u w).1 = Spin)
  ∧ (∀ fuel, (length listings < fuel)%nat →
       K8sDeployment.wait_start_success fuel u w =
       (Ret tt,
        World (trace w ++ polling_events u listings
               ++ [ListNamespacedPod (K8sDeployment.k8s_namespace u)])
              (clock w + S (length listings)) (exit_callbacks w))).
Proof.
  intros Hans Hlab Hbelow Hreach. unfold K8sDeployment.wait_start_success.
  apply Forall_app in Hlab as [Hlab Hitems]. apply Forall_cons in Hitems as [Hitems _].
  assert (answered u w listings) as Hans1.
  { intros i l Hi. apply Hans. apply lookup_app_l_Some. exact Hi. }
  split; intros fuel Hfuel.
  - assert (length (take fuel listings) = fuel) as Hlen by (apply length_take_le; lia).
    rewrite <- Hlen at 1. rewrite <- (Nat.add_0_r (length _)).
    rewrite poll_advance; [reflexivity| | |].
    + intros i l Hi. apply Hans1. apply lookup_take_Some in Hi as [Hi _]. exact Hi.
    + apply Forall_take. exact Hlab.
    + rewrite (right_id_L ∅ (∪)).
      assert (size (running_ips u (concat (take fuel listings)))
              ≤ size (running_ips u (concat listings)))%nat; [|lia].
      apply subseteq_size.
      rewrite <- (take_drop fuel listings) at 2.
      rewrite concat_app, running_ips_app. set_solver.
  - replace fuel with (length listings + S (fuel - S (length listings)))%nat by lia.
    rewrite poll_advance; [|exact Hans1|exact Hlab|rewrite (right_id_L ∅ (∪)); exact Hbelow].
    rewrite (right_id_L ∅ (∪)).
    erewrite poll_step_returned.
    + simpl. rewrite <- app_assoc, Nat.add_succ_r. reflexivity.
    + simpl. apply Hans. apply list_lookup_middle. reflexivity.
    + apply scan_pods_outcome; [exact Hitems|exact Hbelow|].
      rewrite running_ips_app in Hreach.
      replace (running_ips u items ∪ running_ips u (concat listings))
        with (running_ips u (concat listings) ∪ running_ips u items) by set_solver.
      exact Hreach.
Qed.

Lemma running_ips_none u (items : list V1Pod) :
  Forall (λ p, phase (status p) ≠ "Running") items → running_ips u items = ∅.
Proof.
  induction 1 as [|p items Hp _ IH]; [reflexivity|].
  rewrite running_ips_cons, IH. unfold mine.
  rewrite (bool_decide_eq_false_2 _ Hp), andb_false_r. reflexivity.
Qed.

Lemma running_ips_all u (items : list V1Pod) :
  Forall (λ p, labels (metadata p) !! "app" = Some (K8sDeployment.name u)
               ∧ phase (status p) = "Running") items →
  running_ips u items = list_to_set (pod_ip ∘ status <$> items).
Proof.
  induction 1 as [|p items [Happ Hphase] _ IH]; [reflexivity|].
  rewrite running_ips_cons, IH. unfold mine.
  rewrite (bool_decide_eq_true_2 _ Happ), (bool_decide_eq_true_2 _ Hphase).
  reflexivity.
Qed.

(** C7, as stated, fails for a unit that asks for no replica: the set of
    addresses has the size asked for from the outset, and the wait does not
    return, since the size is only looked at after an address was added. *)
Lemma readiness_needs_a_positive_replica_count :
  ¬ (∀ (cluster : control_plane) (u : K8sDeployment.t) (w : world K8sDeployment.t)
       (items : list V1Pod) (fuel : nat),
       answered u w [items] →
       K8sDeployment.num_replicas u ≤ Z.of_nat (size (running_ips u items)) →
       (1 ≤ fuel)%nat →
       (K8sDeployment.wait_start_success fuel u w).1 = Ret tt).
Proof.
  intros Hclaim.
  specialize (Hclaim (obliging (λ _, [])) (sample_unit "encoder" 0) initial [] 1%nat).
  assert ((@K8sDeployment.wait_start_success (obliging (λ _, [])) 1
             (sample_unit "encoder" 0) initial).1 = Spin) as Hspin by reflexivity.
  rewrite Hclaim in Hspin.
  - discriminate Hspin.
  - intros i items Hi. destruct i as [|i]; simpl in Hi; inversion Hi. reflexivity.
  - vm_compute. discriminate.
  - lia.
Qed.

(** C7, amended.  For a unit that asks for at least one replica, started in
    any state on a control plane whose listings only hold pods that carry an
    [app] label, the readiness wait returns exactly when the distinct
    addresses of the pods seen so far with the unit's name as [app] label and
    phase [Running] reach the unit's replica count: during the poll in which
    they first do, and not in any poll before.  In particular, when no pod
    runs during the first two polls and the third lists [num_replicas]
    running pods of the unit at distinct addresses, the wait is still polling
    after two polls and returns during the third. *)
Theorem wait_start_success_returns_when_ready u w :
  (∀ (listings : list (list V1Pod)) (items : list V1Pod),
     answered u w (listings ++ [items]) →
     Forall (Forall labelled) (listings ++ [items]) →
     Z.of_nat (size (running_ips u (concat listings))) < K8sDeployment.num_replicas u →
     K8sDeployment.num_replicas u
     ≤ Z.of_nat (size (running_ips u (concat listings ++ items))) →
     (∀ fuel, (fuel ≤ length listings)%nat →
        (K8sDeployment.wait_start_success fuel u w).1 = Spin)
     ∧ (∀ fuel, (length listings < fuel)%nat →
          K8sDeployment.wait_start_success fuel u w =
          (Ret tt,
           World (trace w ++ polling_events u listings
                  ++ [ListNamespacedPod (K8sDeployment.k8s_namespace u)])
                 (clock w + S (length listings)) (exit_callbacks w))))
  ∧ (∀ (first second third : list V1Pod),
       answered u w [first; second; third] →
       Forall labelled (first ++ second) →
       Forall (λ p, phase (status p) ≠ "Running") (first ++ second) →
       Forall (λ p, labels (metadata p) !! "app" = Some (K8sDeployment.name u)
                    ∧ phase (status p) = "Running") third →
       NoDup (pod_ip ∘ status <$> third) →
       Z.of_nat (length third) = K8sDeployment.num_replicas u →
       1 ≤ K8sDeployment.num_replicas u →
       (∀ fuel, (fuel ≤ 2)%nat →
          (K8sDeployment.wait_start_success fuel u w).1 = Spin)
       ∧ (∀ fuel, (3 ≤ fuel)%nat →
            K8sDeployment.wait_start_success fuel u w =
            (Ret tt,
             World (trace w
                    ++ [ListNamespacedPod (K8sDeployment.k8s_namespace u); Sleep;
                        ListNamespacedPod (K8sDeployment.k8s_namespace u); Sleep;
                        ListNamespacedPod (K8sDeployment.k8s_namespace u)])
                   (clock w + 3) (exit_callbacks w)))).
Proof.
  split; [apply wait_returns_at|].
  intros first second third Hans Hlab Hidle Hmine Hnodup Hlen Hpos.
  apply Forall_app in Hlab as [Hlab1 Hlab2].
  apply Forall_app in Hidle as [Hidle1 Hidle2].
  destruct (wait_returns_at u w [first; second] third) as [Hspin Hret].
  - exact Hans.
  - repeat constructor; try assumption.
    eapply Forall_impl; [exact Hmine|]. intros p [Happ _]. unfold labelled. eauto.
  - simpl. rewrite app_nil_r, running_ips_app, !running_ips_none by assumption.
    rewrite (left_id_L ∅ (∪)), size_empty. lia.
  - simpl. rewrite app_nil_r, !running_ips_app, !running_ips_none by assumption.
    rewrite !(left_id_L ∅ (∪)), running_ips_all by assumption.
    rewrite size_list_to_set, length_fmap by assumption. lia.
  - split; [exact Hspin|]. intros fuel Hfuel. apply Hret. simpl. lia.
Qed.

End ReadinessClaims.

Lemma wait_start_success_returns_when_ready_witness :
  (@K8sDeployment.wait_start_success ready_at_third_poll 2
     (sample_unit "encoder" 2) initial).1 = Spin
  ∧ @K8sDeployment.wait_start_success ready_at_third_poll 3
      (sample_unit "encoder" 2) initial
    = (Ret tt,
       World [ListNamespacedPod "test-flow"; Sleep;
              ListNamespacedPod "test-flow"; Sleep;
              ListNamespacedPod "test-flow"] 3 []).
Proof.
  destruct (@wait_start_success_returns_when_ready ready_at_third_poll
              (sample_unit "encoder" 2) initial) as [_ Hthird].
  destruct (Hthird [] [] [running_pod "encoder" "10.0.0.1"; running_pod "encoder" "10.0.0.2"])
    as [Hspin Hret].
  - intros i items Hi. destruct i as [|[|[|i]]]; simpl in Hi; inversion Hi; reflexivity.
  - constructor.
  - constructor.
  - repeat constructor.
  - apply (bool_decide_unpack _). vm_compute. reflexivity.
  - reflexivity.
  - vm_compute. discriminate.
  - split; [apply Hspin; lia | apply Hret; lia].
Defined.

(** C9.  The set of addresses is created once, before the polling loop: a
    pass over a listing only adds to it, and a poll that does not end the
    loop hands the set it reached to the next poll.  So an address seen
    running in an earlier poll counts for good, and the wait can return
    although no listing ever holds [num_replicas] running pods at once: with
    2 replicas asked for, one pod running at the first poll and, in place of
    it, another one at the second, the wait returns during the second
    poll. *)
Theorem pod_ips_accumulate_across_polls :
  (∀ (u : K8sDeployment.t) (items : list V1Pod) (pod_ips : gset (option string)),
     pod_ips ⊆ (K8sDeployment.scan_pods u items pod_ips).2)
  ∧ (∀ (cp : control_plane) (fuel : nat) (u : K8sDeployment.t)
       (pod_ips pod_ips' : gset (option string)) (w : world K8sDeployment.t)
       (items : list V1Pod),
       list_namespaced_pod (clock w) (K8sDeployment.k8s_namespace u) = inr items →
       K8sDeployment.scan_pods u items pod_ips = (K8sDeployment.Exhausted, pod_ips') →
       pod_ips ⊆ pod_ips'
       ∧ K8sDeployment.poll (S fuel) u pod_ips w =
         K8sDeployment.poll fuel u pod_ips'
           (World (trace w ++ [ListNamespacedPod (K8sDeployment.k8s_namespace u); Sleep])
                  (S (clock w)) (exit_callbacks w)))
  ∧ (∃ (cp : control_plane) (u : K8sDeployment.t),
       K8sDeployment.num_replicas u = 2
       ∧ (∀ n namespace, ∃ items,
            list_namespaced_pod n namespace = inr items
            ∧ length (List.filter (λ p, bool_decide (phase (status p) = "Running")) items)
              = 1%nat)
       ∧ ∀ fuel, (2 ≤ fuel)%nat →
           K8sDeployment.wait_start_success fuel u initial =
           (Ret tt,
            World [ListNamespacedPod (K8sDeployment.k8s_namespace u); Sleep;
                   ListNamespacedPod (K8sDeployment.k8s_namespace u)] 2 [])).
Proof.
  split; [exact scan_pods_grows|]. split.
  - intros cp fuel u pod_ips pod_ips' w items Hlist Hscan. split.
    + pose proof (scan_pods_grows u items pod_ips) as Hgrow.
      rewrite Hscan in Hgrow. exact Hgrow.
    + apply (poll_step_exhausted fuel u pod_ips pod_ips' w items Hlist Hscan).
  - exists one_pod_at_a_time, (sample_unit "encoder" 2).
    split; [reflexivity|]. split.
    + intros n namespace. destruct n as [|n]; eexists; split; reflexivity.
    + intros fuel Hfuel.
      destruct (@wait_returns_at one_pod_at_a_time (sample_unit "encoder" 2) initial
                  [[running_pod "encoder" "10.0.0.1"]] [running_pod "encoder" "10.0.0.2"])
        as [_ Hret].
      * intros i items Hi. destruct i as [|[|i]]; simpl in Hi; inversion Hi; reflexivity.
      * repeat constructor; unfold labelled; simpl; eauto.
      * vm_compute. reflexivity.
      * vm_compute. discriminate.
      * apply Hret. simpl. lia.
Qed.

(** ** The orchestrator: start, close and the deferred wait *)

Section PodRuns.

Context {helpers : kubernetes_deployment} {cluster : control_plane}.
Variable __default_executor__ : string.

Implicit Types (u : K8sDeployment.t) (w : world K8sDeployment.t) (pod : K8sPod.t).

Lemma bind_Ret_inv {A B : Type} (m : M K8sDeployment.t A) (f : A → M K8sDeployment.t B)
    w (b : B) w' :
  (m ≫= f) w = (Ret b, w') → ∃ a w1, m w = (Ret a, w1) ∧ f a w1 = (Ret b, w').
Proof.
  unfold mbind, M_bind. destruct (m w) as [[a|e|] w1]; try discriminate. eauto.
Qed.

Lemma for_each_app {A : Type} (f : A → M K8sDeployment.t unit) (xs ys : list A) w :
  for_each f (xs ++ ys) w = (for_each f xs ;; for_each f ys) w.
Proof.
  revert w. induction xs as [|x xs IH]; intros w; simpl; [reflexivity|].
  unfold mbind, M_bind in *. destruct (f x w) as [[[]|e|] w1]; [apply IH| |]; reflexivity.
Qed.

Lemma for_each_raises {A : Type} (f : A → M K8sDeployment.t unit)
    (xs ys : list A) (x : A) w w1 w2 e :
  for_each f xs w = (Ret tt, w1) →
  f x w1 = (Raise e, w2) →
  for_each f (xs ++ x :: ys) w = (Raise e, w2).
Proof.
  intros Hxs Hx. rewrite for_each_app. simpl. unfold mbind, M_bind.
  rewrite Hxs, Hx. reflexivity.
Qed.

(** Unwinding runs every recorded exit and returns. *)
Lemma unwind_run (callbacks : list K8sDeployment.t) w :
  ∃ evs,
    K8sPod.unwind callbacks None w =
    (Ret tt, World (trace w ++ evs) (clock w + length callbacks) (exit_callbacks w))
    ∧ calls evs = delete_of <$> callbacks.
Proof.
  revert w. induction callbacks as [|u us IH]; intros w; simpl.
  - exists []. unfold mret, M_ret. rewrite world_unchanged. split; reflexivity.
  - unfold K8sDeployment.__exit__.
    destruct (close_run u w) as (level & message & -> & _).
    match goal with |- context [K8sPod.unwind us None ?w1] =>
      destruct (IH w1) as (evs & -> & Hevs) end.
    simpl. eexists. rewrite <- app_assoc, Nat.add_succ_r. split; [reflexivity|].
    simpl. rewrite Hevs. reflexivity.
Qed.

(** [close] of the pod returns, empties the exit stack, and asks for the
    deletion of the recorded units, in the order of the exit stack; it
    makes no other control-plane call. *)
Lemma pod_close_run exit_order pod w :
  ∃ evs,
    K8sPod.close exit_order pod w =
    (Ret tt,
     World (trace w ++ evs) (clock w + length (exit_order (exit_callbacks w))) [])
    ∧ calls evs = delete_of <$> exit_order (exit_callbacks w).
Proof.
  unfold K8sPod.close, K8sPod.__exit__, K8sPod.ExitFIFO__exit__, K8sPod.join,
    mbind, M_bind.
  destruct (unwind_run (exit_order (exit_callbacks w)) (World (trace w) (clock w) []))
    as (evs & -> & Hevs).
  simpl. exists evs. split; [reflexivity | exact Hevs].
Qed.

Lemma enter_context_run fuel u w w' :
  K8sPod.enter_context __default_executor__ fuel u w = (Ret tt, w') →
  exit_callbacks w' = exit_callbacks w ++ [u].
Proof.
  unfold K8sPod.enter_context, K8sDeployment.__enter__, mbind, M_bind, push_exit_callback.
  destruct (start_run __default_executor__ fuel u w) as (d & r & evs & n & -> & _).
  destruct r; [|discriminate..]. intros [= <-]. reflexivity.
Qed.

Lemma for_each_enter_context_run fuel (us : list K8sDeployment.t) w w' :
  for_each (K8sPod.enter_context __default_executor__ fuel) us w = (Ret tt, w') →
  exit_callbacks w' = exit_callbacks w ++ us.
Proof.
  revert w. induction us as [|u us IH]; intros w; simpl.
  - intros [= <-]. rewrite app_nil_r. reflexivity.
  - intros Hrun. apply bind_Ret_inv in Hrun as ([] & w1 & Hu & Hus).
    apply enter_context_run in Hu. apply IH in Hus.
    rewrite Hus, Hu, <- app_assoc. reflexivity.
Qed.

(** When [start] returns, it returns the pod and the exit stack has grown
    by the head, the shards in index order, and the tail. *)
Lemma pod_start_run fuel pod w r w' :
  K8sPod.start __default_executor__ fuel pod w = (Ret r, w') →
  r = pod ∧ exit_callbacks w' = exit_callbacks w ++ units_in_order pod.
Proof.
  unfold K8sPod.start, units_in_order. intros Hrun.
  apply bind_Ret_inv in Hrun as ([] & w1 & Hlog & Hrun).
  apply bind_Ret_inv in Hrun as ([] & w2 & Hcreate & Hrun).
  apply bind_Ret_inv in Hrun as ([] & w3 & Hhead & Hrun).
  apply bind_Ret_inv in Hrun as ([] & w4 & Hshards & Hrun).
  apply bind_Ret_inv in Hrun as ([] & w5 & Htail & Hrun).
  injection Hrun as <- <-. split; [reflexivity|].
  assert (exit_callbacks w2 = exit_callbacks w) as H2.
  { unfold emit in Hlog. injection Hlog as <-.
    unfold kubernetes_tools_create, called in Hcreate.
    destruct (create_namespace _ _ _); [discriminate|]. injection Hcreate as <-.
    reflexivity. }
  apply for_each_enter_context_run in Hshards.
  assert (exit_callbacks w3
          = exit_callbacks w2 ++ option_list (K8sPod.k8s_head_deployment pod)) as H3.
  { destruct (K8sPod.k8s_head_deployment pod) as [head|]; simpl.
    - apply enter_context_run in Hhead. exact Hhead.
    - injection Hhead as <-. rewrite app_nil_r. reflexivity. }
  assert (exit_callbacks w5
          = exit_callbacks w4 ++ option_list (K8sPod.k8s_tail_deployment pod)) as H5.
  { destruct (K8sPod.k8s_tail_deployment pod) as [tail|]; simpl.
    - apply enter_context_run in Htail. exact Htail.
    - injection Htail as <-. rewrite app_nil_r. reflexivity. }
  rewrite H5, Hshards, H3, H2, <- !app_assoc. reflexivity.
Qed.

(** C1.  Take a pod with a head, shard units and a tail, whose exit stack is
    empty, and let [start] return: it has entered the head, then the shards
    in index order, then the tail.  Then [close], with the exit stack
    unwound in the reverse of the order of entry, returns, and the
    control-plane calls it makes are exactly the deletion of the tail, then
    of the shards in reverse index order, then of the head.  No call deletes
    the namespace, and the exit stack is empty again. *)
Theorem close_deletes_in_reverse_of_start fuel pod head tail w r w' :
  K8sPod.k8s_head_deployment pod = Some head →
  K8sPod.k8s_tail_deployment pod = Some tail →
  exit_callbacks w = [] →
  K8sPod.start __default_executor__ fuel pod w = (Ret r, w') →
  exit_callbacks w' = head :: K8sPod.k8s_deployments pod ++ [tail]
  ∧ ∃ (evs : list event) w'',
      K8sPod.close reverse_of_entry pod w' = (Ret tt, w'')
      ∧ trace w'' = (trace w' ++ evs)%list
      ∧ calls evs =
        (delete_of tail
         :: (delete_of <$> rev (K8sPod.k8s_deployments pod))
         ++ [delete_of head])%list
      ∧ exit_callbacks w'' = [].
Proof.
  intros Hhead Htail Hfresh Hstart.
  apply pod_start_run in Hstart as [_ Hstack].
  unfold units_in_order in Hstack. rewrite Hhead, Htail, Hfresh in Hstack.
  simpl in Hstack. split; [exact Hstack|].
  destruct (pod_close_run reverse_of_entry pod w') as (evs & Hclose & Hevs).
  exists evs. eexists. split; [exact Hclose|]. simpl.
  split; [reflexivity|]. split; [|reflexivity].
  rewrite Hevs, Hstack. unfold reverse_of_entry. simpl. rewrite rev_app_distr. simpl.
  rewrite fmap_app. reflexivity.
Qed.

End PodRuns.

Section DeferredWait.

Context {cluster : control_plane}.

Implicit Types (u : K8sDeployment.t) (w : world K8sDeployment.t) (pod : K8sPod.t).

Lemma wait_keeps_stack fuel u w r w' :
  K8sDeployment.wait_start_success fuel u w = (r, w') →
  exit_callbacks w' = exit_callbacks w.
Proof.
  unfold K8sDeployment.wait_start_success.
  destruct (poll_run fuel u ∅ w) as (r' & evs & n & -> & _).
  intros [= _ <-]. reflexivity.
Qed.

Lemma for_each_wait_keeps_stack fuel (us : list K8sDeployment.t) w r w' :
  for_each (K8sDeployment.wait_start_success fuel) us w = (r, w') →
  exit_callbacks w' = exit_callbacks w.
Proof.
  revert w. induction us as [|u us IH]; intros w; simpl.
  - intros [= _ <-]. reflexivity.
  - unfold mbind, M_bind.
    destruct (K8sDeployment.wait_start_success fuel u w) as [[[]|e|] w1] eqn:Hu;
      apply wait_keeps_stack in Hu.
    + intros Hus. apply IH in Hus. congruence.
    + intros [= _ <-]. exact Hu.
    + intros [= _ <-]. exact Hu.
Qed.

(** The body of the [try]: the waits, over the head, the shards in index
    order and the tail. *)
Lemma waits_in_order fuel pod w :
  (match K8sPod.k8s_head_deployment pod with
   | Some head => K8sDeployment.wait_start_success fuel head
   | None => mret tt
   end ;;
   for_each (K8sDeployment.wait_start_success fuel) (K8sPod.k8s_deployments pod) ;;
   match K8sPod.k8s_tail_deployment pod with
   | Some tail => K8sDeployment.wait_start_success fuel tail
   | None => mret tt
   end) w
  = for_each (K8sDeployment.wait_start_success fuel) (units_in_order pod) w.
Proof.
  unfold units_in_order. rewrite for_each_app. unfold mbind, M_bind.
  assert (∀ w1,
            match for_each (K8sDeployment.wait_start_success fuel)
                    (K8sPod.k8s_deployments pod) w1 with
            | (Ret _, w2) =>
                match K8sPod.k8s_tail_deployment pod with
                | Some tail => K8sDeployment.wait_start_success fuel tail
                | None => mret tt
                end w2
            | (Raise e, w2) => (Raise e, w2)
            | (Spin, w2) => (Spin, w2)
            end
            = for_each (K8sDeployment.wait_start_success fuel)
                (K8sPod.k8s_deployments pod ++ option_list (K8sPod.k8s_tail_deployment pod))
                w1) as Hrest.
  { intros w1. rewrite for_each_app. unfold mbind, M_bind.
    destruct (for_each _ (K8sPod.k8s_deployments pod) w1) as [[[]|e|] w2];
      try reflexivity.
    destruct (K8sPod.k8s_tail_deployment pod) as [tail|]; simpl; [|reflexivity].
    unfold mbind, M_bind.
    destruct (K8sDeployment.wait_start_success fuel tail w2) as [[[]|e|] w3]; reflexivity. }
  destruct (K8sPod.k8s_head_deployment pod) as [head|]; simpl.
  - unfold mbind, M_bind.
    destruct (K8sDeployment.wait_start_success fuel head w) as [[[]|e|] w1];
      try reflexivity.
    apply Hrest.
  - apply Hrest.
Qed.

Variable exit_order : list K8sDeployment.t → list K8sDeployment.t.

(** X20.  In blocking mode the deferred wait is refused: it raises a
    [ValueError] at once, makes no control-plane call and closes nothing. *)
Lemma deferred_wait_refused fuel pod w :
  Namespace.noblock_on_start (K8sPod.args pod) = false →
  ∃ msg, K8sPod.wait_start_success exit_order fuel pod w = (Raise (ValueError msg), w).
Proof.
  intros Hblock. unfold K8sPod.wait_start_success. rewrite Hblock. simpl.
  eexists. reflexivity.
Qed.

(** When every unit becomes ready the deferred wait returns and closes
    nothing. *)
Lemma deferred_wait_returns fuel pod w w' :
  Namespace.noblock_on_start (K8sPod.args pod) = true →
  for_each (K8sDeployment.wait_start_success fuel) (units_in_order pod) w = (Ret tt, w') →
  K8sPod.wait_start_success exit_order fuel pod w = (Ret tt, w').
Proof.
  intros Hdeferred Hall. unfold K8sPod.wait_start_success. rewrite Hdeferred. simpl.
  unfold try_except. rewrite waits_in_order, Hall. reflexivity.
Qed.

(** C5.  In deferred mode the waits run over the head, the shards in index
    order and the tail.  When the waits of the units before [u] in that
    order have returned and the wait of [u] raises [e], the orchestrator
    waits for no further unit: it calls its own [close], which returns
    after asking once for the deletion of every unit on the exit stack (the
    units that [start] entered) and leaves the stack empty; then the
    deferred wait raises the same [e].  This holds in whatever order the
    exit stack runs the recorded exits, as long as it runs each of them
    once. *)
Theorem wait_start_success_closes_on_failure
    fuel pod w (before after : list K8sDeployment.t) u w1 w2 e :
  (∀ callbacks, exit_order callbacks ≡ₚ callbacks) →
  Namespace.noblock_on_start (K8sPod.args pod) = true →
  units_in_order pod = before ++ u :: after →
  for_each (K8sDeployment.wait_start_success fuel) before w = (Ret tt, w1) →
  K8sDeployment.wait_start_success fuel u w1 = (Raise e, w2) →
  ∃ (evs : list event) w3,
    K8sPod.close exit_order pod w2 = (Ret tt, w3)
    ∧ K8sPod.wait_start_success exit_order fuel pod w = (Raise e, w3)
    ∧ trace w3 = trace w2 ++ evs
    ∧ calls evs = delete_of <$> exit_order (exit_callbacks w)
    ∧ calls evs ≡ₚ delete_of <$> exit_callbacks w
    ∧ exit_callbacks w3 = [].
Proof.
  intros Horder Hdeferred Hunits Hbefore Hu.
  destruct (pod_close_run exit_order pod w2) as (evs & Hclose & Hevs).
  apply wait_keeps_stack in Hu as Hstack2.
  apply for_each_wait_keeps_stack in Hbefore as Hstack1.
  rewrite Hstack2, Hstack1 in Hevs.
  exists evs. eexists. split; [exact Hclose|].
  split; [|split; [reflexivity|split; [exact Hevs|split; [|reflexivity]]]].
  - unfold K8sPod.wait_start_success. rewrite Hdeferred. simpl.
    unfold try_except. rewrite waits_in_order, Hunits.
    rewrite (for_each_raises _ before after u w w1 w2 e Hbefore Hu).
    unfold mbind, M_bind. rewrite Hclose. reflexivity.
  - rewrite Hevs. apply fmap_Permutation, Horder.
Qed.

End DeferredWait.

(** ** Sample runs *)


Lemma close_deletes_in_reverse_of_start_witness :
  ∃ pod w' (evs : list event) w'',
    K8sPod.__init__ "BaseExecutor" "image_data" "master"
      (sample_args 3 2 (Some "docker://merger")) None = inr pod
    ∧ @K8sPod.start sample_helpers (obliging (λ _, [])) "BaseExecutor" 0 pod initial
      = (Ret pod, w')
    ∧ @K8sPod.close (obliging (λ _, [])) reverse_of_entry pod w' = (Ret tt, w'')
    ∧ trace w'' = trace w' ++ evs
    ∧ calls evs =
      [DeleteNamespacedDeployment "image_data-tail" "test-flow";
       DeleteNamespacedDeployment "image_data-2" "test-flow";
       DeleteNamespacedDeployment "image_data-1" "test-flow";
       DeleteNamespacedDeployment "image_data-0" "test-flow";
       DeleteNamespacedDeployment "image_data-head" "test-flow"].
Proof.
  destruct (K8sPod.__init__ "BaseExecutor" "image_data" "master"
              (sample_args 3 2 (Some "docker://merger")) None) as [e|pod] eqn:Hinit;
    [vm_compute in Hinit; discriminate|].
  vm_compute in Hinit. injection Hinit as Hpod.
  destruct (@K8sPod.start sample_helpers (obliging (λ _, [])) "BaseExecutor" 0 pod initial)
    as [r w'] eqn:Hstart.
  assert (r = Ret pod) as ->.
  { rewrite <- Hpod in Hstart. vm_compute in Hstart. injection Hstart as <- _.
    rewrite <- Hpod. reflexivity. }
  destruct (K8sPod.k8s_head_deployment pod) as [head|] eqn:Hhead;
    [|rewrite <- Hpod in Hhead; discriminate].
  destruct (K8sPod.k8s_tail_deployment pod) as [tail|] eqn:Htail;
    [|rewrite <- Hpod in Htail; discriminate].
  destruct (@close_deletes_in_reverse_of_start sample_helpers (obliging (λ _, []))
              "BaseExecutor" 0 pod head tail initial pod w' Hhead Htail eq_refl Hstart)
    as (_ & evs & w'' & Hclose & Htrace & Hcalls & _).
  exists pod, w', evs, w''. split; [reflexivity|]. split; [exact Hstart|].
  split; [exact Hclose|]. split; [exact Htrace|].
  rewrite Hcalls. rewrite <- Hpod in Hhead, Htail. simpl in Hhead, Htail.
  injection Hhead as <-. injection Htail as <-. rewrite <- Hpod. reflexivity.
Defined.

Lemma wait_start_success_closes_on_failure_witness :
  ∃ pod w3,
    K8sPod.__init__ "BaseExecutor" "image_data" "master"
      (sample_args 3 2 (Some "docker://merger")) None = inr pod
    ∧ @K8sPod.wait_start_success unreachable reverse_of_entry 1 pod
        (World [] 0 (units_in_order pod))
      = (Raise (ApiException "unreachable"), w3)
    ∧ calls (trace w3) =
      [ListNamespacedPod "test-flow";
       DeleteNamespacedDeployment "image_data-tail" "test-flow";
       DeleteNamespacedDeployment "image_data-2" "test-flow";
       DeleteNamespacedDeployment "image_data-1" "test-flow";
       DeleteNamespacedDeployment "image_data-0" "test-flow";
       DeleteNamespacedDeployment "image_data-head" "test-flow"]
    ∧ exit_callbacks w3 = [].
Proof.
  destruct (K8sPod.__init__ "BaseExecutor" "image_data" "master"
              (sample_args 3 2 (Some "docker://merger")) None) as [e|pod] eqn:Hinit;
    [vm_compute in Hinit; discriminate|].
  vm_compute in Hinit. injection Hinit as Hpod.
  destruct (units_in_order pod) as [|u after] eqn:Hunits;
    [rewrite <- Hpod in Hunits; discriminate|].
  destruct (@wait_start_success_closes_on_failure unreachable reverse_of_entry 1 pod
              (World [] 0 (u :: after)) [] after u (World [] 0 (u :: after))
              (World [ListNamespacedPod (K8sDeployment.k8s_namespace u)] 1 (u :: after))
              (ApiException "unreachable"))
    as (evs & w3 & _ & Hwait & Htrace & Hcalls & _ & Hstack).
  - intros callbacks. symmetry. apply Permutation_rev.
  - rewrite <- Hpod. reflexivity.
  - exact Hunits.
  - reflexivity.
  - reflexivity.
  - exists pod, w3. rewrite Hunits.
    split; [reflexivity|]. split; [exact Hwait|]. split; [|exact Hstack].
    rewrite Htrace. simpl. rewrite Hcalls. simpl.
    rewrite <- Hpod in Hunits. vm_compute in Hunits. injection Hunits as <- <-.
    reflexivity.
Defined.

(** ** What one unit's start does, beyond the replica count *)

Section UnitStartFacts.

Context {helpers : kubernetes_deployment} {cluster : control_plane}.
Variable __default_executor__ : string.

Implicit Types (u : K8sDeployment.t) (w : world K8sDeployment.t).

(** [start] is one [deploy_service] call under the name of [deployed_name],
    then the readiness wait unless the unit does not block, then [self]. *)
Lemma start_as_deploy_then_wait fuel u :
  ∃ d,
    svc_name d = deployed_name u
    ∧ svc_namespace d = K8sDeployment.k8s_namespace u
    ∧ ∀ w,
        K8sDeployment.start __default_executor__ fuel u w =
        (kubernetes_deployment_deploy_service d ;;
         (if negb (Namespace.noblock_on_start (K8sDeployment.common_args u))
          then K8sDeployment.wait_start_success fuel u else mret tt) ;;
         mret u) w.
Proof.
  unfold K8sDeployment.start, deployed_name.
  destruct (String.eqb (K8sDeployment.name u) "gateway").
  - eexists. split; [|split; [|intros w; unfold K8sDeployment._deploy_gateway; reflexivity]];
      reflexivity.
  - unfold K8sDeployment._deploy_runtime.
    destruct (String.eqb _ __default_executor__);
      (eexists; split; [|split; [|intros w; reflexivity]]; reflexivity).
Qed.

(** X1.  A unit that does not block on start makes exactly one control-plane
    call, the [deploy_service] call under its deployed name, and never lists
    pods, whatever the fuel: [start] returns the unit when the call returns
    and raises what the call raises. *)
Theorem deferred_start_only_deploys fuel u w :
  Namespace.noblock_on_start (K8sDeployment.common_args u) = true →
  ∃ d,
    svc_name d = deployed_name u
    ∧ K8sDeployment.start __default_executor__ fuel u w =
      (match deploy_service (clock w) d with
       | None => Ret u
       | Some e => Raise e
       end,
       World (trace w ++ [DeployService d]) (S (clock w)) (exit_callbacks w)).
Proof.
  intros Hdeferred.
  destruct (start_as_deploy_then_wait fuel u) as (d & Hname & _ & Hstart).
  exists d. split; [exact Hname|]. rewrite Hstart, Hdeferred. simpl.
  unfold mbind, M_bind, kubernetes_deployment_deploy_service, called.
  destruct (deploy_service (clock w) d); reflexivity.
Qed.

(** X2.  In either mode, when the [deploy_service] call of a unit raises,
    [start] raises the same exception at once: the trace gains that one call
    and no readiness poll follows. *)
Theorem start_surfaces_deploy_error fuel u :
  ∃ d,
    svc_name d = deployed_name u
    ∧ ∀ w e,
        deploy_service (clock w) d = Some e →
        K8sDeployment.start __default_executor__ fuel u w =
        (Raise e, World (trace w ++ [DeployService d]) (S (clock w)) (exit_callbacks w)).
Proof.
  destruct (start_as_deploy_then_wait fuel u) as (d & Hname & _ & Hstart).
  exists d. split; [exact Hname|]. intros w e Hfail. rewrite Hstart.
  unfold mbind, M_bind, kubernetes_deployment_deploy_service, called.
  rewrite Hfail. reflexivity.
Qed.

(** X3.  The unit named [gateway] is created by [start] and deleted by
    [close] under one and the same name and namespace. *)
Theorem gateway_created_and_deleted_under_one_name fuel u w :
  K8sDeployment.name u = "gateway" →
  ∃ (d : deploy_service_call) r (evs : list event) w',
    K8sDeployment.start __default_executor__ fuel u w = (r, w')
    ∧ trace w' = trace w ++ DeployService d :: evs
    ∧ svc_name d = "gateway"
    ∧ ∃ (evs' : list event) w'',
        K8sDeployment.close u w' = (Ret tt, w'')
        ∧ trace w'' = trace w' ++ evs'
        ∧ calls evs' = [DeleteNamespacedDeployment (svc_name d) (svc_namespace d)].
Proof.
  intros Hname.
  destruct (start_run __default_executor__ fuel u w)
    as (d & r & evs & n & Hrun & _ & Hd & Hns & _).
  rewrite Hname in Hd. simpl in Hd.
  exists d, r, evs. eexists. split; [exact Hrun|]. simpl.
  split; [reflexivity|]. split; [exact Hd|].
  match goal with |- context [K8sDeployment.close u ?w1] =>
    destruct (close_run u w1) as (level & message & Hclose & _) end.
  do 2 eexists. split; [exact Hclose|]. simpl. split; [reflexivity|].
  unfold delete_of. rewrite Hd, Hns, Hname. reflexivity.
Qed.

(** X4.  For a unit that is not the gateway, the address that [to_node]
    hands to the routing layer is the name and namespace of the Service
    that [start] creates, followed by [.svc]; the node carries the unit's raw
    name and its two ports. *)
Theorem node_host_is_the_created_service fuel u w :
  K8sDeployment.name u ≠ "gateway" →
  ∃ (d : deploy_service_call) r (evs : list event) w',
    K8sDeployment.start __default_executor__ fuel u w = (r, w')
    ∧ trace w' = trace w ++ DeployService d :: evs
    ∧ K8sDeployment.node_head_host (K8sDeployment.to_node u)
      = svc_name d +:+ "." +:+ svc_namespace d +:+ ".svc"
    ∧ K8sDeployment.node_name (K8sDeployment.to_node u) = K8sDeployment.name u
    ∧ K8sDeployment.node_head_port_in (K8sDeployment.to_node u)
      = K8sDeployment.head_port_in u
    ∧ K8sDeployment.node_tail_port_out (K8sDeployment.to_node u)
      = K8sDeployment.tail_port_out u.
Proof.
  intros Hname.
  destruct (start_run __default_executor__ fuel u w)
    as (d & r & evs & n & Hrun & _ & Hd & Hns & _).
  apply String.eqb_neq in Hname. rewrite Hname in Hd.
  exists d, r, evs. eexists. split; [exact Hrun|]. simpl.
  split; [reflexivity|]. rewrite Hd, Hns. repeat apply conj; reflexivity.
Qed.

End UnitStartFacts.

(** ** Errors and foreign pods in the readiness loop *)

Section ReadinessFacts.

Context {cluster : control_plane}.

Implicit Types (u : K8sDeployment.t) (w : world K8sDeployment.t)
  (items : list V1Pod) (pod_ips : gset (option string)).

(** A pass goes through labelled pods that leave the set below the replica
    count, collecting their addresses. *)
Lemma scan_pods_app u items rest pod_ips :
  Forall labelled items →
  Z.of_nat (size (running_ips u items ∪ pod_ips)) < K8sDeployment.num_replicas u →
  K8sDeployment.scan_pods u (items ++ rest) pod_ips
  = K8sDeployment.scan_pods u rest (running_ips u items ∪ pod_ips).
Proof.
  intros Hlab. revert pod_ips.
  induction Hlab as [|p items Hp Hlab IH]; intros pod_ips Hlt.
  - rewrite running_ips_nil, (left_id_L ∅ (∪)). reflexivity.
  - simpl. rewrite (corresponds_to_me_labelled u p Hp).
    rewrite running_ips_cons in Hlt |- *.
    destruct (mine u p); [|apply IH; exact Hlt].
    assert ({[pod_ip (status p)]} ∪ running_ips u items ∪ pod_ips
            = running_ips u items ∪ ({[pod_ip (status p)]} ∪ pod_ips)) as Heq by set_solver.
    rewrite Heq in Hlt |- *.
    case_bool_decide as Hsize; [|apply IH; exact Hlt].
    exfalso.
    assert (size ({[pod_ip (status p)]} ∪ pod_ips)
            ≤ size (running_ips u items ∪ ({[pod_ip (status p)]} ∪ pod_ips)))%nat
      by (apply subseteq_size; set_solver).
    lia.
Qed.

(** X5.  While the unit is not yet ready, an exception raised by a pod
    listing leaves the readiness wait as it is: after the polls answered by
    [listings], none of which made the unit ready, a listing that raises [e]
    makes the wait raise [e] during that poll, with no retry. *)
Theorem wait_surfaces_listing_error u w (listings : list (list V1Pod)) e :
  answered u w listings →
  Forall (Forall labelled) listings →
  Z.of_nat (size (running_ips u (concat listings))) < K8sDeployment.num_replicas u →
  list_namespaced_pod (clock w + length listings) (K8sDeployment.k8s_namespace u) = inl e →
  ∀ fuel, (length listings < fuel)%nat →
    K8sDeployment.wait_start_success fuel u w =
    (Raise e,
     World (trace w ++ polling_events u listings
            ++ [ListNamespacedPod (K8sDeployment.k8s_namespace u)])
           (clock w + S (length listings)) (exit_callbacks w)).
Proof.
  intros Hans Hlab Hbelow Hfail fuel Hfuel. unfold K8sDeployment.wait_start_success.
  replace fuel with (length listings + S (fuel - S (length listings)))%nat by lia.
  rewrite poll_advance; [|exact Hans|exact Hlab|rewrite (right_id_L ∅ (∪)); exact Hbelow].
  simpl. unfold mbind, M_bind, client_list_namespaced_pod, called. simpl.
  rewrite Hfail. rewrite <- app_assoc, Nat.add_succ_r. reflexivity.
Qed.

(** X6.  A listed pod whose dictionary of labels has no [app] key makes the
    wait raise [KeyError('app')] as soon as the loop reaches it, that is,
    unless the pods listed before it already made the unit ready; the pods
    listed after it are not looked at. *)
Theorem wait_raises_on_unlabelled_pod
    u w (listings : list (list V1Pod)) (before after : list V1Pod) (p : V1Pod) :
  answered u w (listings ++ [before ++ p :: after]) →
  Forall (Forall labelled) listings →
  Forall labelled before →
  labels (metadata p) !! "app" = None →
  Z.of_nat (size (running_ips u (concat listings ++ before)))
  < K8sDeployment.num_replicas u →
  ∀ fuel, (length listings < fuel)%nat →
    K8sDeployment.wait_start_success fuel u w =
    (Raise (KeyError "app"),
     World (trace w ++ polling_events u listings
            ++ [ListNamespacedPod (K8sDeployment.k8s_namespace u)])
           (clock w + S (length listings)) (exit_callbacks w)).
Proof.
  intros Hans Hlab Hbefore Hp Hbelow fuel Hfuel. unfold K8sDeployment.wait_start_success.
  rewrite running_ips_app in Hbelow.
  assert (Z.of_nat (size (running_ips u (concat listings) ∪ ∅))
          < K8sDeployment.num_replicas u) as Hbelow1.
  { assert (size (running_ips u (concat listings) ∪ ∅)
            ≤ size (running_ips u (concat listings) ∪ running_ips u before))%nat
      by (apply subseteq_size; set_solver).
    lia. }
  replace fuel with (length listings + S (fuel - S (length listings)))%nat by lia.
  rewrite poll_advance; [|intros i l Hi; apply Hans, lookup_app_l_Some, Hi|exact Hlab|exact Hbelow1].
  simpl. unfold mbind, M_bind, client_list_namespaced_pod, called. simpl.
  rewrite (Hans (length listings) (before ++ p :: after))
    by (apply list_lookup_middle; reflexivity).
  rewrite scan_pods_app, scan_pods_unlabelled; [|exact Hp|exact Hbefore|].
  - rewrite <- app_assoc, Nat.add_succ_r. reflexivity.
  - replace (running_ips u before ∪ (running_ips u (concat listings) ∪ ∅))
      with (running_ips u (concat listings) ∪ running_ips u before) by set_solver.
    exact Hbelow.
Qed.

Lemma scan_pods_filter u items pod_ips :
  Forall labelled items →
  K8sDeployment.scan_pods u items pod_ips
  = K8sDeployment.scan_pods u (List.filter (mine u) items) pod_ips.
Proof.
  intros Hlab. revert pod_ips.
  induction Hlab as [|p items Hp Hlab IH]; intros pod_ips; [reflexivity|].
  simpl. destruct (mine u p) eqn:Hmine; simpl.
  - rewrite (corresponds_to_me_labelled u p Hp), Hmine.
    case_bool_decide; [reflexivity | apply IH].
  - rewrite (corresponds_to_me_labelled u p Hp), Hmine. apply IH.
Qed.

End ReadinessFacts.

(** X7.  Readiness of a unit depends only on its own running pods.  Take two
    control planes that answer every pod listing, the first with pods that
    all carry an [app] label, the second with just those of them whose
    label is the unit's name and whose phase is [Running]: the readiness
    wait of the unit runs the same on both, to the same outcome after the
    same polls. *)
Theorem wait_ignores_foreign_pods
    (all_pods own_pods : control_plane) (u : K8sDeployment.t) :
  (∀ n, ∃ items,
      @list_namespaced_pod all_pods n (K8sDeployment.k8s_namespace u) = inr items
      ∧ Forall labelled items
      ∧ @list_namespaced_pod own_pods n (K8sDeployment.k8s_namespace u)
        = inr (List.filter (mine u) items)) →
  ∀ fuel w,
    @K8sDeployment.wait_start_success all_pods fuel u w
    = @K8sDeployment.wait_start_success own_pods fuel u w.
Proof.
  intros Hsame fuel. unfold K8sDeployment.wait_start_success.
  generalize (∅ : gset (option string)).
  induction fuel as [|fuel IH]; intros pod_ips w; [reflexivity|].
  simpl. unfold mbind, M_bind, client_list_namespaced_pod, called, emit.
  destruct (Hsame (clock w)) as (items & -> & Hlab & ->).
  rewrite <- (scan_pods_filter u items pod_ips Hlab).
  destruct (K8sDeployment.scan_pods u items pod_ips) as [[| |e] pod_ips'];
    [reflexivity|apply IH|reflexivity].
Qed.

(** ** The orchestrator's start, step by step *)

Section PodStartFacts.

Context {helpers : kubernetes_deployment} {cluster : control_plane}.
Variable __default_executor__ : string.

Implicit Types (u : K8sDeployment.t) (w : world K8sDeployment.t) (pod : K8sPod.t).

(** Head if any, shards, tail if any: one loop over [units_in_order]. *)
Lemma in_topology_order {B : Type} (f : K8sDeployment.t → M K8sDeployment.t unit)
    (k : M K8sDeployment.t B) pod w :
  (match K8sPod.k8s_head_deployment pod with
   | Some head => f head
   | None => mret tt
   end ;;
   for_each f (K8sPod.k8s_deployments pod) ;;
   match K8sPod.k8s_tail_deployment pod with
   | Some tail => f tail
   | None => mret tt
   end ;;
   k) w
  = (for_each f (units_in_order pod) ;; k) w.
Proof.
  unfold units_in_order.
  assert (∀ w1,
            (for_each f (K8sPod.k8s_deployments pod) ;;
             match K8sPod.k8s_tail_deployment pod with
             | Some tail => f tail
             | None => mret tt
             end ;;
             k) w1
            = (for_each f (K8sPod.k8s_deployments pod
                           ++ option_list (K8sPod.k8s_tail_deployment pod)) ;; k) w1)
    as Hrest.
  { intros w1. unfold mbind, M_bind. rewrite for_each_app. unfold mbind, M_bind.
    destruct (for_each f (K8sPod.k8s_deployments pod) w1) as [[[]|e|] w2]; try reflexivity.
    destruct (K8sPod.k8s_tail_deployment pod) as [tail|]; simpl; [|reflexivity].
    unfold mbind, M_bind. destruct (f tail w2) as [[[]|e|] w3]; reflexivity. }
  destruct (K8sPod.k8s_head_deployment pod) as [head|]; simpl.
  - unfold mbind, M_bind in *. destruct (f head w) as [[[]|e|] w1]; try reflexivity.
    apply Hrest.
  - apply Hrest.
Qed.

Lemma start_in_topology_order fuel pod w :
  K8sPod.start __default_executor__ fuel pod w =
  match create_namespace (clock w) (Namespace.k8s_namespace (K8sPod.args pod))
          (getattr (Namespace.k8s_custom_resource_dir (K8sPod.args pod)) None) with
  | Some e =>
      (Raise e, World (trace w ++ start_prologue pod) (S (clock w)) (exit_callbacks w))
  | None =>
      (for_each (K8sPod.enter_context __default_executor__ fuel) (units_in_order pod) ;;
       mret pod)
        (World (trace w ++ start_prologue pod) (S (clock w)) (exit_callbacks w))
  end.
Proof.
  unfold K8sPod.start.
  unfold mbind at 1 2. unfold M_bind at 1 2.
  unfold emit, kubernetes_tools_create, called, start_prologue. simpl.
  destruct (create_namespace _ _ _); rewrite <- app_assoc; simpl; [reflexivity|].
  apply in_topology_order.
Qed.

Lemma deploys_of_polling u (evs : list event) :
  Forall (polling_event u) evs → deploys evs = [] ∧ Forall starting_event evs.
Proof.
  induction 1 as [|e evs [-> | ->] _ [IH1 IH2]]; [split; constructor|..];
    (split; [exact IH1 | constructor; [exact I | exact IH2]]).
Qed.

Lemma enter_context_trace fuel u w w' :
  K8sPod.enter_context __default_executor__ fuel u w = (Ret tt, w') →
  ∃ evs,
    trace w' = trace w ++ evs
    ∧ svc_name <$> deploys evs = [deployed_name u]
    ∧ Forall starting_event evs.
Proof.
  unfold K8sPod.enter_context, K8sDeployment.__enter__, mbind, M_bind, push_exit_callback.
  destruct (start_run __default_executor__ fuel u w) as (d & r & evs & n & -> & Hevs & Hd & _).
  destruct r; [|discriminate..]. intros [= <-].
  apply deploys_of_polling in Hevs as [Hnone Hall].
  exists (DeployService d :: evs). simpl. split; [reflexivity|].
  unfold deploys in *. simpl. rewrite Hnone. simpl. rewrite Hd.
  split; [reflexivity|]. constructor; [exact I | exact Hall].
Qed.

Lemma for_each_enter_context_trace fuel (us : list K8sDeployment.t) w w' :
  for_each (K8sPod.enter_context __default_executor__ fuel) us w = (Ret tt, w') →
  ∃ evs,
    trace w' = trace w ++ evs
    ∧ svc_name <$> deploys evs = deployed_name <$> us
    ∧ Forall starting_event evs.
Proof.
  revert w. induction us as [|u us IH]; intros w; simpl.
  - intros [= <-]. exists []. rewrite app_nil_r. repeat split; constructor.
  - intros Hrun. apply bind_Ret_inv in Hrun as ([] & w1 & Hu & Hus).
    apply enter_context_trace in Hu as (evs1 & Ht1 & Hd1 & Hs1).
    apply IH in Hus as (evs2 & Ht2 & Hd2 & Hs2).
    exists (evs1 ++ evs2). rewrite Ht2, Ht1, <- app_assoc. split; [reflexivity|].
    unfold deploys in *. rewrite omap_app, fmap_app, Hd1, Hd2.
    split; [reflexivity|]. apply Forall_app. split; assumption.
Qed.

(** X8.  When the namespace cannot be created, [start] raises what the
    creation raised: no unit is deployed and nothing is put on the exit
    stack. *)
Theorem start_stops_when_namespace_fails fuel pod w e :
  create_namespace (clock w) (Namespace.k8s_namespace (K8sPod.args pod))
    (getattr (Namespace.k8s_custom_resource_dir (K8sPod.args pod)) None) = Some e →
  K8sPod.start __default_executor__ fuel pod w =
  (Raise e, World (trace w ++ start_prologue pod) (S (clock w)) (exit_callbacks w))
  ∧ deploys (start_prologue pod) = [].
Proof.
  intros Hfail. rewrite start_in_topology_order, Hfail. split; reflexivity.
Qed.

Lemma pod_start_trace fuel pod w r w' :
  K8sPod.start __default_executor__ fuel pod w = (Ret r, w') →
  ∃ evs,
    trace w' = trace w ++ start_prologue pod ++ evs
    ∧ svc_name <$> deploys evs = deployed_name <$> units_in_order pod
    ∧ Forall starting_event evs.
Proof.
  rewrite start_in_topology_order.
  destruct (create_namespace _ _ _); [discriminate|].
  intros Hrun. apply bind_Ret_inv in Hrun as ([] & w1 & Hunits & Hret).
  injection Hret as _ <-.
  apply for_each_enter_context_trace in Hunits as (evs & Htrace & Hdeploys & Hall).
  exists evs. simpl in Htrace. rewrite Htrace, <- app_assoc.
  split; [reflexivity|]. split; assumption.
Qed.

(** X9.  When [start] returns, it returns the pod, and what it did is: log
    one line, create the namespace, then deploy the units one after the
    other in the order head, shards by index, tail, each under its deployed
    name, with nothing but readiness polls in between.  It deleted nothing,
    and the exit stack has grown by the units in that same order. *)
Theorem start_deploys_in_topology_order fuel pod w r w' :
  K8sPod.start __default_executor__ fuel pod w = (Ret r, w') →
  r = pod
  ∧ exit_callbacks w' = exit_callbacks w ++ units_in_order pod
  ∧ ∃ evs,
      trace w' = trace w ++ start_prologue pod ++ evs
      ∧ svc_name <$> deploys evs = deployed_name <$> units_in_order pod
      ∧ Forall starting_event evs.
Proof.
  intros Hstart.
  destruct (pod_start_run __default_executor__ fuel pod w r w' Hstart) as [Hr Hstack].
  destruct (pod_start_trace fuel pod w r w' Hstart) as (evs & Htrace & Hdeploys & Hall).
  split; [exact Hr|]. split; [exact Hstack|].
  exists evs. repeat split; assumption.
Qed.

(** X10.  A unit whose own [start] raises inside the orchestrator's [start]
    is not put on the exit stack, although its [deploy_service] call was
    made: [start] raises the same exception, the stack holds the units
    entered before it and none of the later ones, and a [close] that follows
    asks for the deletion of those earlier units only, in whatever order the
    exit stack runs. *)
Theorem failed_unit_is_not_recorded
    fuel pod w (before after : list K8sDeployment.t) u w1 w2 e :
  units_in_order pod = before ++ u :: after →
  create_namespace (clock w) (Namespace.k8s_namespace (K8sPod.args pod))
    (getattr (Namespace.k8s_custom_resource_dir (K8sPod.args pod)) None) = None →
  for_each (K8sPod.enter_context __default_executor__ fuel) before
    (World (trace w ++ start_prologue pod) (S (clock w)) (exit_callbacks w))
  = (Ret tt, w1) →
  K8sDeployment.start __default_executor__ fuel u w1 = (Raise e, w2) →
  K8sPod.start __default_executor__ fuel pod w = (Raise e, w2)
  ∧ exit_callbacks w2 = exit_callbacks w ++ before
  ∧ (∃ (d : deploy_service_call) (evs : list event),
       trace w2 = trace w1 ++ DeployService d :: evs ∧ svc_name d = deployed_name u)
  ∧ ∀ exit_order, ∃ (evs : list event) w3,
      K8sPod.close exit_order pod w2 = (Ret tt, w3)
      ∧ trace w3 = trace w2 ++ evs
      ∧ calls evs = delete_of <$> exit_order (exit_callbacks w ++ before).
Proof.
  intros Hunits Hcreate Hbefore Hu.
  assert (exit_callbacks w2 = exit_callbacks w ++ before) as Hstack.
  { apply for_each_enter_context_run in Hbefore. simpl in Hbefore.
    destruct (start_run __default_executor__ fuel u w1) as (d & r & evs & n & Hrun & _).
    rewrite Hrun in Hu. injection Hu as _ <-. simpl. exact Hbefore. }
  split; [|split; [exact Hstack|split]].
  - rewrite start_in_topology_order, Hcreate, Hunits.
    unfold mbind at 1. unfold M_bind at 1.
    rewrite (for_each_raises _ before after u _ w1 w2 e Hbefore); [reflexivity|].
    unfold K8sPod.enter_context, K8sDeployment.__enter__, mbind, M_bind.
    rewrite Hu. reflexivity.
  - destruct (start_run __default_executor__ fuel u w1)
      as (d & r & evs & n & Hrun & _ & Hd & _).
    rewrite Hrun in Hu. injection Hu as _ <-. exists d, evs. split; [reflexivity|exact Hd].
  - intros exit_order. destruct (pod_close_run exit_order pod w2) as (evs & Hclose & Hevs).
    exists evs. eexists. split; [exact Hclose|]. simpl. split; [reflexivity|].
    rewrite Hevs, Hstack. reflexivity.
Qed.

(** X11.  [start] does not look at what was started before: a second [start]
    that returns has deployed every unit again and the exit stack holds
    every unit twice. *)
Theorem start_twice_records_twice fuel pod w r1 w1 r2 w2 :
  exit_callbacks w = [] →
  K8sPod.start __default_executor__ fuel pod w = (Ret r1, w1) →
  K8sPod.start __default_executor__ fuel pod w1 = (Ret r2, w2) →
  exit_callbacks w2 = units_in_order pod ++ units_in_order pod
  ∧ ∃ evs,
      trace w2 = trace w1 ++ start_prologue pod ++ evs
      ∧ svc_name <$> deploys evs = deployed_name <$> units_in_order pod.
Proof.
  intros Hfresh H1 H2.
  apply pod_start_run in H1 as [_ Hs1]. rewrite Hfresh in Hs1. simpl in Hs1.
  pose proof H2 as H2'. apply pod_start_run in H2 as [_ Hs2].
  split; [rewrite Hs2, Hs1; reflexivity|].
  apply pod_start_trace in H2' as (evs & Htrace & Hdeploys & _).
  exists evs. split; assumption.
Qed.

End PodStartFacts.

(** ** The deferred wait when every unit becomes ready *)

Section DeferredWaitFacts.

Context {cluster : control_plane}.
Variable exit_order : list K8sDeployment.t → list K8sDeployment.t.

Implicit Types (u : K8sDeployment.t) (w : world K8sDeployment.t) (pod : K8sPod.t).

Lemma for_each_wait_trace fuel (us : list K8sDeployment.t) w r w' :
  for_each (K8sDeployment.wait_start_success fuel) us w = (r, w') →
  ∃ evs, trace w' = trace w ++ evs ∧ Forall starting_event evs.
Proof.
  revert w. induction us as [|u us IH]; intros w; simpl.
  - intros [= _ <-]. exists []. rewrite app_nil_r. split; [reflexivity | constructor].
  - unfold mbind, M_bind, K8sDeployment.wait_start_success.
    destruct (poll_run fuel u ∅ w) as (r1 & evs1 & n & -> & Hevs1).
    apply deploys_of_polling in Hevs1 as [_ Hevs1].
    destruct r1 as [[]|e|].
    + intros Hus. apply IH in Hus as (evs2 & Htrace & Hevs2). simpl in Htrace.
      exists (evs1 ++ evs2). rewrite Htrace, <- app_assoc. split; [reflexivity|].
      apply Forall_app. split; assumption.
    + intros [= _ <-]. exists evs1. split; [reflexivity | exact Hevs1].
    + intros [= _ <-]. exists evs1. split; [reflexivity | exact Hevs1].
Qed.

(** X12.  The deferred wait of the orchestrator returns exactly when the pod
    is in deferred mode and the readiness waits of the head, the shards in
    index order and the tail have returned one after the other; it then ends
    in the state the last of them left.  It has only listed pods and slept:
    nothing was deleted and the exit stack is as it was. *)
Theorem deferred_wait_returns_when_all_ready fuel pod w w' :
  (K8sPod.wait_start_success exit_order fuel pod w = (Ret tt, w') ↔
   Namespace.noblock_on_start (K8sPod.args pod) = true
   ∧ for_each (K8sDeployment.wait_start_success fuel) (units_in_order pod) w
     = (Ret tt, w'))
  ∧ (K8sPod.wait_start_success exit_order fuel pod w = (Ret tt, w') →
     exit_callbacks w' = exit_callbacks w
     ∧ ∃ evs, trace w' = trace w ++ evs ∧ Forall starting_event evs).
Proof.
  assert (K8sPod.wait_start_success exit_order fuel pod w = (Ret tt, w') →
          Namespace.noblock_on_start (K8sPod.args pod) = true
          ∧ for_each (K8sDeployment.wait_start_success fuel) (units_in_order pod) w
            = (Ret tt, w')) as Hforward.
  { unfold K8sPod.wait_start_success.
    destruct (Namespace.noblock_on_start (K8sPod.args pod)); simpl; [|discriminate].
    unfold try_except. rewrite waits_in_order.
    destruct (for_each _ (units_in_order pod) w) as [[[]|e|] w1]; [auto| |discriminate].
    unfold mbind, M_bind.
    destruct (pod_close_run exit_order pod w1) as (evs & -> & _). discriminate. }
  split; [split|].
  - exact Hforward.
  - intros [Hdeferred Hall]. apply deferred_wait_returns; assumption.
  - intros Hret. apply Hforward in Hret as [_ Hall]. split.
    + apply (for_each_wait_keeps_stack _ _ _ _ _ Hall).
    + apply (for_each_wait_trace _ _ _ _ _ Hall).
Qed.

End DeferredWaitFacts.

(** ** What a constructed pod looks like *)

Section ConstructionFacts.

Variable __default_executor__ : string.

Implicit Types (args : Namespace.t) (pod : K8sPod.t).

(** A plan that was returned: its shards, and the attributes that a head
    and a tail needed. *)
Lemma parse_deployment_args_returned needs args plan :
  _parse_deployment_args __default_executor__ needs args = inr plan →
  deployments plan = replicate (Z.to_nat (getattr (Namespace.parallel args) 1)) args
  ∧ (is_Some (head_deployment plan) ↔ head_condition needs args = true)
  ∧ (is_Some (tail_deployment plan) ↔ tail_condition args = true)
  ∧ (head_condition needs args = true → Namespace.uses_before args ≠ Missing)
  ∧ (tail_condition args = true → Namespace.uses_after args ≠ Missing).
Proof.
  unfold _parse_deployment_args.
  destruct (head_condition needs args), (tail_condition args);
    destruct (Namespace.uses_before args), (Namespace.uses_after args); simpl;
    try discriminate; intros [= <-]; simpl;
    (split; [reflexivity|]);
    repeat split; try discriminate; try reflexivity; eauto;
    try (intros []; discriminate).
Qed.

Lemma init_returned pod_name version args needs pod :
  K8sPod.__init__ __default_executor__ pod_name version args needs = inr pod →
  ∃ plan,
    _parse_deployment_args __default_executor__ (default ∅ needs) args = inr plan
    ∧ pod =
      {| K8sPod.name := pod_name;
         K8sPod.args := args;
         K8sPod.needs := default ∅ needs;
         K8sPod.deployment_args := plan;
         K8sPod.version := version;
         K8sPod.fixed_head_port_in := 8081;
         K8sPod.fixed_tail_port_out := 8082;
         K8sPod.k8s_head_deployment :=
           K8sDeployment.__init__ (pod_name +:+ "-head") 8081 8082 [] version None args
             <$> head_deployment plan;
         K8sPod.k8s_tail_deployment :=
           K8sDeployment.__init__ (pod_name +:+ "-tail") 8081 8082 [] version None args
             <$> tail_deployment plan;
         K8sPod.k8s_deployments :=
           imap (λ i a,
                   K8sDeployment.__init__
                     (if bool_decide (1 < length (deployments plan))%nat
                      then pod_name +:+ "-" +:+ pretty i else pod_name)
                     8081 8082 [] version None args a)
                (deployments plan) |}.
Proof.
  unfold K8sPod.__init__, K8sPod._parse_args.
  destruct (_parse_deployment_args _ _ _) as [e|plan]; [discriminate|].
  intros [= <-]. exists plan. split; reflexivity.
Qed.

Lemma shard_names_of_replicate (mk : string → Namespace.t → K8sDeployment.t)
    (g : nat → string) (k : nat) args :
  (∀ s a, K8sDeployment.name (mk s a) = s) →
  K8sDeployment.name <$> imap (λ i a, mk (g i) a) (replicate k args) = g <$> seq 0 k.
Proof.
  intros Hmk. apply list_eq. intros i.
  rewrite !list_lookup_fmap, list_lookup_imap.
  destruct (decide (i < k)%nat) as [Hlt|Hge].
  - rewrite (lookup_replicate_2 k args i Hlt), lookup_seq_lt by exact Hlt.
    simpl. rewrite Hmk. reflexivity.
  - rewrite (proj1 (lookup_replicate_None k args i)), lookup_seq_ge by lia.
    reflexivity.
Qed.

(** X13.  The names of the units of a constructed pod, in start order: the
    pod's name followed by [-head] when the plan has a head; then the pod's
    name itself for a single shard, and otherwise the name followed by [-]
    and the index for each shard (none for a shard count below 1); then the
    name followed by [-tail] when the plan has a tail. *)
Theorem constructed_unit_names pod_name version args needs pod :
  K8sPod.__init__ __default_executor__ pod_name version args needs = inr pod →
  K8sDeployment.name <$> units_in_order pod =
  (if head_condition (default ∅ needs) args then [pod_name +:+ "-head"] else [])
  ++ (if bool_decide (getattr (Namespace.parallel args) 1 = 1)
      then [pod_name]
      else (λ i, pod_name +:+ "-" +:+ pretty i)
           <$> seq 0 (Z.to_nat (getattr (Namespace.parallel args) 1)))
  ++ (if tail_condition args then [pod_name +:+ "-tail"] else []).
Proof.
  intros Hinit. apply init_returned in Hinit as (plan & Hplan & ->).
  apply parse_deployment_args_returned in Hplan as (Hshards & Hhead & Htail & _).
  unfold units_in_order. simpl. rewrite !fmap_app. f_equal; [|f_equal].
  - destruct (head_deployment plan) as [h|]; simpl.
    + rewrite (proj1 Hhead) by eauto. reflexivity.
    + destruct (head_condition _ args); [|reflexivity].
      destruct (proj2 Hhead eq_refl); discriminate.
  - rewrite Hshards, length_replicate.
    rewrite (shard_names_of_replicate
               (λ s a, K8sDeployment.__init__ s 8081 8082 [] version None args a)
               (λ i, if bool_decide (1 < Z.to_nat (getattr (Namespace.parallel args) 1%Z))%nat
                     then pod_name +:+ "-" +:+ pretty i else pod_name))
      by reflexivity.
    repeat case_bool_decide.
    + lia.
    + reflexivity.
    + replace (Z.to_nat (getattr (Namespace.parallel args) 1)) with 1%nat by lia.
      reflexivity.
    + replace (Z.to_nat (getattr (Namespace.parallel args) 1)) with 0%nat by lia.
      reflexivity.
  - destruct (tail_deployment plan) as [t|]; simpl.
    + rewrite (proj1 Htail) by eauto. reflexivity.
    + destruct (tail_condition args); [|reflexivity].
      destruct (proj2 Htail eq_refl); discriminate.
Qed.

(** X14.  Regenerating the plan of a pod that was just constructed changes
    nothing: [update_pea_args] returns the very same pod. *)
Theorem update_pea_args_after_init pod_name version args needs pod :
  K8sPod.__init__ __default_executor__ pod_name version args needs = inr pod →
  K8sPod.update_pea_args __default_executor__ pod = inr pod.
Proof.
  intros Hinit. apply init_returned in Hinit as (plan & Hplan & ->).
  unfold K8sPod.update_pea_args, K8sPod._parse_args. simpl. rewrite Hplan. reflexivity.
Qed.

End ConstructionFacts.

(** ** The exported topology *)

Section ExportFacts.

Context {helpers : kubernetes_deployment} {cluster : control_plane}.
Variable __default_executor__ : string.

Implicit Types (w : world K8sDeployment.t) (pod : K8sPod.t).

Lemma deployments_in_topology_order pod :
  Namespace.name (K8sPod.args pod) ≠ "gateway" →
  K8sPod.deployments pod = Some (K8sDeployment.to_node <$> units_in_order pod).
Proof.
  intros Hname. apply String.eqb_neq in Hname.
  unfold K8sPod.deployments, units_in_order. rewrite Hname, !fmap_app.
  destruct (K8sPod.k8s_head_deployment pod), (K8sPod.k8s_tail_deployment pod); reflexivity.
Qed.

(** X15.  For a pod whose arguments are not named [gateway], the
    [deployments] property lists one node per unit, head first, then the
    shards by index, then the tail; after a [start] that returned from an
    empty exit stack these are exactly the units on the exit stack, in the
    order of entry. *)
Theorem deployments_export_what_start_entered fuel pod w r w' :
  Namespace.name (K8sPod.args pod) ≠ "gateway" →
  exit_callbacks w = [] →
  K8sPod.start __default_executor__ fuel pod w = (Ret r, w') →
  K8sPod.deployments pod = Some (K8sDeployment.to_node <$> exit_callbacks w')
  ∧ K8sDeployment.node_name <$> (K8sDeployment.to_node <$> exit_callbacks w')
    = K8sDeployment.name <$> units_in_order pod.
Proof.
  intros Hname Hfresh Hstart.
  apply pod_start_run in Hstart as [_ Hstack]. rewrite Hfresh in Hstack. simpl in Hstack.
  rewrite Hstack. split; [apply deployments_in_topology_order; exact Hname|].
  rewrite <- list_fmap_compose. reflexivity.
Qed.

(** X16.  For a constructed pod whose arguments are named [gateway], the
    [deployments] property exports the first shard unit alone, whether or
    not the pod has a head, a tail or further shards; with a shard count
    below 1 there is no shard unit and the property fails on the empty
    list. *)
Theorem gateway_exports_its_first_shard pod_name version args needs pod :
  K8sPod.__init__ __default_executor__ pod_name version args needs = inr pod →
  Namespace.name args = "gateway" →
  (getattr (Namespace.parallel args) 1 < 1 → K8sPod.deployments pod = None)
  ∧ (1 ≤ getattr (Namespace.parallel args) 1 →
     ∃ first,
       K8sPod.k8s_deployments pod !! 0%nat = Some first
       ∧ K8sPod.deployments pod = Some [K8sDeployment.to_node first]
       ∧ K8sDeployment.name first =
         if bool_decide (getattr (Namespace.parallel args) 1 = 1)
         then pod_name else pod_name +:+ "-0").
Proof.
  intros Hinit Hname. apply init_returned in Hinit as (plan & Hplan & ->).
  apply parse_deployment_args_returned in Hplan as (Hshards & _).
  unfold K8sPod.deployments. simpl. rewrite Hname, Hshards. simpl. split.
  - intros Hnone.
    replace (Z.to_nat (getattr (Namespace.parallel args) 1)) with 0%nat by lia.
    reflexivity.
  - intros Hsome.
    destruct (Z.to_nat (getattr (Namespace.parallel args) 1)) as [|k] eqn:Hk; [lia|].
    simpl. eexists. split; [reflexivity|]. split; [reflexivity|]. simpl.
    rewrite length_replicate. repeat case_bool_decide; try reflexivity; lia.
Qed.

End ExportFacts.

(** ** The diagram *)

Section DiagramFacts.

Variable __default_executor__ : string.

Lemma length_mjoin_uniform {A B : Type} (f : A → list B) (c : nat) (l : list A) :
  (∀ x, length (f x) = c) → length (mjoin (f <$> l)) = (length l * c)%nat.
Proof.
  intros Hf. induction l as [|x l IH]; [reflexivity|].
  rewrite fmap_cons. change (mjoin (f x :: (f <$> l))) with (f x ++ mjoin (f <$> l)).
  rewrite length_app, Hf, IH. reflexivity.
Qed.

Lemma nonempty_append (s t : string) : t ≠ EmptyString → String.eqb (s +:+ t) EmptyString = false.
Proof.
  intros Ht. apply String.eqb_neq. destruct s; simpl; [exact Ht | discriminate].
Qed.

(** X17.  A constructed pod can always be drawn: [_mermaid_str] raises
    nothing.  For the pod named [gateway] it is empty.  Otherwise it opens
    with the [subgraph] line of the pod and closes with [end;]; without
    sharding it has one line per replica in between, and with [parallel > 1]
    it has, for each shard, a block of three lines and one line per replica,
    then one edge from the head and one edge to the tail. *)
Theorem constructed_pod_can_be_drawn pod_name version args needs pod :
  K8sPod.__init__ __default_executor__ pod_name version args needs = inr pod →
  ∃ lines,
    K8sPod._mermaid_str __default_executor__ pod = inr lines
    ∧ length lines =
      (if String.eqb pod_name "gateway" then 0%nat
       else if 1 <? getattr (Namespace.parallel args) 1
            then (3 + Z.to_nat (getattr (Namespace.parallel args) 1%Z)
                      * (5 + Z.to_nat (getattr (Namespace.replicas args) 1%Z)))%nat
            else (3 + Z.to_nat (getattr (Namespace.replicas args) 1%Z))%nat)
    ∧ (pod_name ≠ "gateway" →
       head lines = Some ("subgraph " +:+ pod_name +:+ ";" +:+ K8sPod.nl)
       ∧ last lines = Some "end;").
Proof.
  intros Hinit. apply init_returned in Hinit as (plan & Hplan & ->).
  apply parse_deployment_args_returned in Hplan as (Hshards & _ & _ & Hhead & Htail).
  unfold K8sPod._mermaid_str, K8sPod.deployments_of, K8sPod.range. simpl.
  destruct (String.eqb_spec pod_name "gateway") as [->|Hname]; simpl.
  { eexists. split; [reflexivity|]. split; [reflexivity|]. intros []. reflexivity. }
  destruct (1 <? getattr (Namespace.parallel args) 1) eqn:Hsharded.
  - assert (head_condition (default ∅ needs) args = true) as Hh
      by (unfold head_condition; rewrite Hsharded; reflexivity).
    assert (tail_condition args = true) as Ht
      by (unfold tail_condition; rewrite Hsharded; reflexivity).
    specialize (Hhead Hh). specialize (Htail Ht).
    destruct (Namespace.uses_before args) as [|ub]; [contradiction|].
    destruct (Namespace.uses_after args) as [|ua]; [contradiction|].
    simpl. rewrite !nonempty_append by discriminate. simpl.
    eexists. split; [reflexivity|]. split.
    + simpl. rewrite !length_app, !length_fmap, length_imap. simpl.
      rewrite (length_mjoin_uniform _
                 (3 + Z.to_nat (getattr (Namespace.replicas args) 1))).
      * rewrite length_imap, Hshards, length_replicate. lia.
      * intros x. simpl. rewrite length_app, length_fmap, length_seq. simpl. lia.
    + intros _. split; [reflexivity|].
      rewrite ?app_comm_cons, last_snoc. reflexivity.
  - eexists. split; [reflexivity|]. split.
    + simpl. rewrite length_app, length_fmap, length_seq. simpl. lia.
    + intros _. split; [reflexivity|].
      rewrite ?app_comm_cons, last_snoc. reflexivity.
Qed.

End DiagramFacts.

(** ** The version of the base image *)

Lemma tag_names_returned (tags : list (gmap string string)) (names : gset string) :
  K8sPod.tag_names tags = inr names →
  (∀ n, n ∈ names ↔ ∃ tag, tag ∈ tags ∧ tag !! "name" = Some n)
  ∧ ∀ tag, tag ∈ tags → tag !! "name" ≠ None.
Proof.
  revert names. induction tags as [|tag rest IH]; simpl.
  - intros names [= <-]. split.
    + intros n. split; [set_solver|]. intros (tag & Hin & _). inversion Hin.
    + intros tag Hin. inversion Hin.
  - destruct (tag !! "name") as [n0|] eqn:Htag; [|discriminate].
    destruct (K8sPod.tag_names rest) as [e|names0]; [discriminate|].
    intros names [= <-]. destruct (IH names0 eq_refl) as [IH1 IH2]. split.
    + intros n. rewrite elem_of_union, elem_of_singleton, IH1. split.
      * intros [->|(t & Hin & Ht)]; [exists tag|exists t]; split;
          auto using list_elem_of_here, list_elem_of_further.
      * intros (t & Hin & Ht). apply elem_of_cons in Hin as [->|Hin].
        -- left. congruence.
        -- right. eauto.
    + intros t Hin. apply elem_of_cons in Hin as [->|Hin]; [congruence | auto].
Qed.

Lemma tag_names_raised (tags : list (gmap string string)) (e : exception) :
  K8sPod.tag_names tags = inl e →
  e = KeyError "name" ∧ ∃ tag, tag ∈ tags ∧ tag !! "name" = None.
Proof.
  induction tags as [|tag rest IH]; simpl; [discriminate|].
  destruct (tag !! "name") as [n0|] eqn:Htag.
  - destruct (K8sPod.tag_names rest) as [e0|names0]; [|discriminate].
    intros [= <-]. destruct (IH eq_refl) as (He & t & Hin & Ht).
    split; [exact He|]. exists t. split; [apply list_elem_of_further, Hin | exact Ht].
  - intros [= <-]. split; [reflexivity|]. exists tag. split; [apply list_elem_of_here | exact Htag].
Qed.

(** X18.  The version of the base image: when every tag of the registry's
    answer has a [name], the framework's own version is returned if one of
    the tags is named after it, and [master] otherwise, so that the result is
    never an unpublished version; a tag without a [name] makes the lookup
    raise [KeyError('name')], and nothing else does. *)
Theorem base_executor_version_is_published_or_master
    (jina_version : string) (tags : list (gmap string string)) :
  (∀ result,
     K8sPod._get_base_executor_version jina_version tags = inr result →
     (result = jina_version ∧ ∃ tag, tag ∈ tags ∧ tag !! "name" = Some jina_version)
     ∨ (result = "master" ∧ ∀ tag, tag ∈ tags → tag !! "name" ≠ Some jina_version))
  ∧ ((∃ tag, tag ∈ tags ∧ tag !! "name" = None) ↔
     K8sPod._get_base_executor_version jina_version tags = inl (KeyError "name")).
Proof.
  unfold K8sPod._get_base_executor_version.
  destruct (K8sPod.tag_names tags) as [e|names] eqn:Hnames.
  - apply tag_names_raised in Hnames as [-> Hmissing].
    split; [discriminate|]. split; [reflexivity | intros _; exact Hmissing].
  - apply tag_names_returned in Hnames as [Hin Hall]. split.
    + intros result. destruct (decide (jina_version ∈ names)) as [Hv|Hv]; intros [= <-].
      * left. split; [reflexivity|]. apply Hin, Hv.
      * right. split; [reflexivity|]. intros tag Htag Hname. apply Hv, Hin. eauto.
    + split.
      * intros (tag & Htag & Hnone). destruct (Hall tag Htag Hnone).
      * destruct (decide (jina_version ∈ names)); discriminate.
Qed.

(** ** Sample runs of the further properties *)

Lemma deferred_start_only_deploys_witness :
  ∃ d,
    svc_name d = "encoder"
    ∧ K8sDeployment.start (helpers:=sample_helpers) (cluster:=obliging (λ _, []))
        "BaseExecutor" 7 (sample_unit "encoder" 2) initial
      = (Ret (sample_unit "encoder" 2), World [DeployService d] 1 []).
Proof.
  destruct (deferred_start_only_deploys (helpers:=sample_helpers)
              (cluster:=obliging (λ _, [])) "BaseExecutor" 7
              (sample_unit "encoder" 2) initial) as (d & Hname & Hstart).
  - reflexivity.
  - exists d. split; [exact Hname | exact Hstart].
Defined.

Lemma gateway_created_and_deleted_under_one_name_witness :
  ∃ (d : deploy_service_call) r (evs : list event) w',
    K8sDeployment.start (helpers:=sample_helpers) (cluster:=obliging (λ _, []))
      "BaseExecutor" 0 (sample_unit "gateway" 3) initial = (r, w')
    ∧ trace w' = DeployService d :: evs
    ∧ svc_name d = "gateway".
Proof.
  destruct (gateway_created_and_deleted_under_one_name (helpers:=sample_helpers)
              (cluster:=obliging (λ _, [])) "BaseExecutor" 0
              (sample_unit "gateway" 3) initial)
    as (d & r & evs & w' & Hstart & Htrace & Hname & _).
  - reflexivity.
  - exists d, r, evs, w'. split; [exact Hstart|]. split; [exact Htrace | exact Hname].
Defined.

Lemma node_host_is_the_created_service_witness :
  ∃ (d : deploy_service_call),
    svc_name d +:+ "." +:+ svc_namespace d +:+ ".svc"
    = "image-encoder.test-flow.svc".
Proof.
  destruct (node_host_is_the_created_service (helpers:=sample_helpers)
              (cluster:=obliging (λ _, [])) "BaseExecutor" 0
              (sample_unit "image_encoder" 1) initial)
    as (d & r & evs & w' & _ & _ & Hhost & _).
  - discriminate.
  - exists d. rewrite <- Hhost. reflexivity.
Defined.

Lemma wait_surfaces_listing_error_witness :
  K8sDeployment.wait_start_success (cluster:=failing_at 2) 3
    (sample_unit "encoder" 2) initial
  = (Raise (ApiException "gone"),
     World [ListNamespacedPod "test-flow"; Sleep;
            ListNamespacedPod "test-flow"; Sleep;
            ListNamespacedPod "test-flow"] 3 []).
Proof.
  apply (wait_surfaces_listing_error (cluster:=failing_at 2)
           (sample_unit "encoder" 2) initial [[]; []] (ApiException "gone")).
  - intros i items Hi. destruct i as [|[|i]]; simpl in Hi; inversion Hi; reflexivity.
  - repeat constructor.
  - vm_compute. reflexivity.
  - reflexivity.
  - simpl. lia.
Defined.

Lemma wait_raises_on_unlabelled_pod_witness :
  K8sDeployment.wait_start_success
    (cluster:=obliging (λ _, [running_pod "encoder" "10.0.0.1";
                              unlabelled_pod "10.0.0.9";
                              running_pod "encoder" "10.0.0.2"]))
    1 (sample_unit "encoder" 2) initial
  = (Raise (KeyError "app"), World [ListNamespacedPod "test-flow"] 1 []).
Proof.
  apply (wait_raises_on_unlabelled_pod
           (cluster:=obliging (λ _, [running_pod "encoder" "10.0.0.1";
                                     unlabelled_pod "10.0.0.9";
                                     running_pod "encoder" "10.0.0.2"]))
           (sample_unit "encoder" 2) initial []
           [running_pod "encoder" "10.0.0.1"] [running_pod "encoder" "10.0.0.2"]
           (unlabelled_pod "10.0.0.9")).
  - intros i items Hi. destruct i as [|i]; simpl in Hi; inversion Hi; reflexivity.
  - constructor.
  - repeat constructor. unfold labelled. simpl. eauto.
  - reflexivity.
  - vm_compute. reflexivity.
  - simpl. lia.
Defined.

Lemma wait_ignores_foreign_pods_witness :
  K8sDeployment.wait_start_success
    (cluster:=obliging (λ _, [running_pod "other" "10.0.0.7";
                              running_pod "encoder" "10.0.0.1"]))
    1 (sample_unit "encoder" 1) initial
  = K8sDeployment.wait_start_success
      (cluster:=obliging (λ _, [running_pod "encoder" "10.0.0.1"]))
      1 (sample_unit "encoder" 1) initial.
Proof.
  apply (wait_ignores_foreign_pods
           (obliging (λ _, [running_pod "other" "10.0.0.7";
                            running_pod "encoder" "10.0.0.1"]))
           (obliging (λ _, [running_pod "encoder" "10.0.0.1"]))
           (sample_unit "encoder" 1)).
  intros n. eexists. split; [reflexivity|]. split.
  - repeat constructor; unfold labelled; simpl; eauto.
  - vm_compute. reflexivity.
Defined.

Lemma wait_without_replicas_witness :
  (K8sDeployment.wait_start_success (cluster:=ready_at_third_poll) 9
     (sample_unit "encoder" 0) initial).1 ≠ Ret tt.
Proof.
  apply (wait_without_replicas (cluster:=ready_at_third_poll) 9
           (sample_unit "encoder" 0) initial).
  vm_compute. discriminate.
Defined.

Lemma start_stops_when_namespace_fails_witness :
  ∃ w',
    K8sPod.start (helpers:=sample_helpers) (cluster:=without_namespace)
      "BaseExecutor" 0 sample_pod initial
    = (Raise (ApiException "forbidden"), w')
    ∧ deploys (trace w') = []
    ∧ exit_callbacks w' = [].
Proof.
  destruct (start_stops_when_namespace_fails (helpers:=sample_helpers)
              (cluster:=without_namespace) "BaseExecutor" 0 sample_pod initial
              (ApiException "forbidden") eq_refl) as [Hstart Hnone].
  eexists. split; [exact Hstart|]. split; [exact Hnone | reflexivity].
Defined.

Lemma start_deploys_in_topology_order_witness :
  ∃ w' (evs : list event),
    K8sPod.start (helpers:=sample_helpers) (cluster:=obliging (λ _, []))
      "BaseExecutor" 0 sample_pod initial = (Ret sample_pod, w')
    ∧ trace w' = start_prologue sample_pod ++ evs
    ∧ svc_name <$> deploys evs
      = ["image-data-head"; "image-data-0"; "image-data-1"; "image-data-2";
         "image-data-tail"].
Proof.
  destruct (K8sPod.start (helpers:=sample_helpers) (cluster:=obliging (λ _, []))
              "BaseExecutor" 0 sample_pod initial) as [r w'] eqn:Hstart.
  assert (r = Ret sample_pod) as -> by (vm_compute in Hstart; injection Hstart as <- _; reflexivity).
  destruct (start_deploys_in_topology_order (helpers:=sample_helpers)
              (cluster:=obliging (λ _, [])) "BaseExecutor" 0 sample_pod initial
              sample_pod w' Hstart) as (_ & _ & evs & Htrace & Hdeploys & _).
  exists w', evs. split; [reflexivity|]. split; [exact Htrace|].
  rewrite Hdeploys. vm_compute. reflexivity.
Defined.

Lemma failed_unit_is_not_recorded_witness :
  ∃ w2,
    K8sPod.start (helpers:=sample_helpers) (cluster:=refusing "image-data-1")
      "BaseExecutor" 0 sample_pod initial
    = (Raise (ApiException "refused"), w2)
    ∧ K8sDeployment.name <$> exit_callbacks w2 = ["image_data-head"; "image_data-0"].
Proof.
  destruct (for_each
              (K8sPod.enter_context (helpers:=sample_helpers)
                 (cluster:=refusing "image-data-1") "BaseExecutor" 0)
              (take 2 (units_in_order sample_pod))
              (World (start_prologue sample_pod) 1 [])) as [r1 w1] eqn:Hbefore.
  assert (r1 = Ret tt) as -> by (vm_compute in Hbefore; injection Hbefore as <- _; reflexivity).
  destruct (K8sDeployment.start (helpers:=sample_helpers)
              (cluster:=refusing "image-data-1") "BaseExecutor" 0
              (unit_at sample_pod 2) w1) as [r2 w2] eqn:Hu.
  assert (r2 = Raise (ApiException "refused")) as ->.
  { vm_compute in Hbefore. injection Hbefore as <-. vm_compute in Hu.
    injection Hu as <- _. reflexivity. }
  destruct (failed_unit_is_not_recorded (helpers:=sample_helpers)
              (cluster:=refusing "image-data-1") "BaseExecutor" 0 sample_pod initial
              (take 2 (units_in_order sample_pod)) (drop 3 (units_in_order sample_pod))
              (unit_at sample_pod 2) w1 w2 (ApiException "refused"))
    as (Hstart & Hstack & _).
  - vm_compute. reflexivity.
  - reflexivity.
  - exact Hbefore.
  - exact Hu.
  - exists w2. split; [exact Hstart|]. rewrite Hstack. vm_compute. reflexivity.
Defined.

Lemma start_twice_records_twice_witness :
  ∃ w1 w2,
    K8sPod.start (helpers:=sample_helpers) (cluster:=obliging (λ _, []))
      "BaseExecutor" 0 sample_pod initial = (Ret sample_pod, w1)
    ∧ K8sPod.start (helpers:=sample_helpers) (cluster:=obliging (λ _, []))
        "BaseExecutor" 0 sample_pod w1 = (Ret sample_pod, w2)
    ∧ length (exit_callbacks w2) = 10%nat.
Proof.
  destruct (K8sPod.start (helpers:=sample_helpers) (cluster:=obliging (λ _, []))
              "BaseExecutor" 0 sample_pod initial) as [r1 w1] eqn:H1.
  assert (r1 = Ret sample_pod) as -> by (vm_compute in H1; injection H1 as <- _; reflexivity).
  destruct (K8sPod.start (helpers:=sample_helpers) (cluster:=obliging (λ _, []))
              "BaseExecutor" 0 sample_pod w1) as [r2 w2] eqn:H2.
  assert (r2 = Ret sample_pod) as ->.
  { vm_compute in H1. injection H1 as <-. vm_compute in H2.
    injection H2 as <- _. reflexivity. }
  destruct (start_twice_records_twice (helpers:=sample_helpers)
              (cluster:=obliging (λ _, [])) "BaseExecutor" 0 sample_pod initial
              sample_pod w1 sample_pod w2 eq_refl H1 H2) as [Hstack _].
  exists w1, w2. split; [reflexivity|]. split; [exact H2|].
  rewrite Hstack. reflexivity.
Defined.

Lemma deferred_wait_refused_witness :
  ∃ msg,
    K8sPod.wait_start_success (cluster:=obliging (λ _, [])) reverse_of_entry 3
      (constructed "image_data" (blocking_args 1 1)) initial
    = (Raise (ValueError msg), initial).
Proof.
  apply (deferred_wait_refused (cluster:=obliging (λ _, [])) reverse_of_entry 3
           (constructed "image_data" (blocking_args 1 1)) initial).
  reflexivity.
Defined.

Lemma constructed_unit_names_witness :
  K8sDeployment.name <$> units_in_order sample_pod
  = ["image_data-head"; "image_data-0"; "image_data-1"; "image_data-2";
     "image_data-tail"].
Proof.
  rewrite (constructed_unit_names "BaseExecutor" "image_data" "master"
             (sample_args 3 2 (Some "docker://merger")) None sample_pod eq_refl).
  reflexivity.
Defined.

Lemma update_pea_args_after_init_witness :
  K8sPod.update_pea_args "BaseExecutor" sample_pod = inr sample_pod.
Proof.
  apply (update_pea_args_after_init "BaseExecutor" "image_data" "master"
           (sample_args 3 2 (Some "docker://merger")) None sample_pod).
  reflexivity.
Defined.

Lemma deployments_export_what_start_entered_witness :
  ∃ nodes,
    K8sPod.deployments (helpers:=sample_helpers) sample_pod = Some nodes
    ∧ K8sDeployment.node_name <$> nodes
      = ["image_data-head"; "image_data-0"; "image_data-1"; "image_data-2";
         "image_data-tail"].
Proof.
  destruct (K8sPod.start (helpers:=sample_helpers) (cluster:=obliging (λ _, []))
              "BaseExecutor" 0 sample_pod initial) as [r w'] eqn:Hstart.
  assert (r = Ret sample_pod) as -> by (vm_compute in Hstart; injection Hstart as <- _; reflexivity).
  destruct (deployments_export_what_start_entered (helpers:=sample_helpers)
              (cluster:=obliging (λ _, [])) "BaseExecutor" 0 sample_pod initial
              sample_pod w') as [Hnodes Hnames].
  - discriminate.
  - reflexivity.
  - exact Hstart.
  - eexists. split; [exact Hnodes|]. rewrite Hnames. reflexivity.
Defined.

Lemma gateway_exports_its_first_shard_witness :
  K8sPod.deployments (helpers:=sample_helpers)
    (constructed "gateway" (gateway_args (Attr 0))) = None
  ∧ ∃ first,
      K8sPod.deployments (helpers:=sample_helpers)
        (constructed "gateway" (gateway_args Missing))
      = Some [K8sDeployment.to_node (helpers:=sample_helpers) first]
      ∧ K8sDeployment.name first = "gateway".
Proof.
  split.
  - apply (gateway_exports_its_first_shard (helpers:=sample_helpers) "BaseExecutor"
             "gateway" "master" (gateway_args (Attr 0)) None
             (constructed "gateway" (gateway_args (Attr 0))) eq_refl eq_refl).
    simpl. lia.
  - destruct (gateway_exports_its_first_shard (helpers:=sample_helpers) "BaseExecutor"
                "gateway" "master" (gateway_args Missing) None
                (constructed "gateway" (gateway_args Missing)) eq_refl eq_refl)
      as [_ Hfirst].
    destruct Hfirst as (first & _ & Hnodes & Hname); [simpl; lia|].
    exists first. split; [exact Hnodes | exact Hname].
Defined.

Lemma constructed_pod_can_be_drawn_witness :
  ∃ lines,
    K8sPod._mermaid_str "BaseExecutor" sample_pod = inr lines
    ∧ length lines = 24%nat
    ∧ last lines = Some "end;".
Proof.
  destruct (constructed_pod_can_be_drawn "BaseExecutor" "image_data" "master"
              (sample_args 3 2 (Some "docker://merger")) None sample_pod eq_refl)
    as (lines & Hlines & Hlength & Hends).
  exists lines. split; [exact Hlines|]. split; [exact Hlength|].
  apply Hends. discriminate.
Defined.
